(** * update_dashboard.py: a shallow embedding and its verified properties

    The script fetches three academic profile pages, extracts a few
    metrics with regular expressions, merges them in a dictionary keyed by
    source name and renders a README from a fixed template.

    Modelling conventions.
    - A Python [str] is a Rocq [string]: a sequence of 8-bit characters,
      non-ASCII text being present as its UTF-8 bytes.  The classes [\d] and
      [\s], [re.IGNORECASE] and [str.strip] are taken over ASCII; no byte of
      a multi-byte character belongs to any of them.
    - A Python [int] is a [Z].  The limit CPython can be configured to put
      on the number of digits [int(str)] converts is not modelled.
    - A Python [dict] is an association list in insertion order.
    - Exceptions are values of [result]; the console, the network, the file
      system and the clock live in an explicit [World]. *)

From Stdlib Require Import String Ascii List ZArith NArith Bool Lia DecimalString.
Import ListNotations.
Local Open Scope list_scope.
Local Open Scope string_scope.

Set Implicit Arguments.
Set Warnings "-register-all".

(* ================================================================== *)
(** * Text *)

Module Text.

Definition code (c : ascii) : N := N_of_ascii c.

Definition between (lo hi : N) (c : ascii) : bool :=
  (lo <=? code c)%N && (code c <=? hi)%N.

(** [\d] and the digits [int] accepts. *)
Definition is_digit (c : ascii) : bool := between 48 57 c.

(** [\s] and the characters [str.strip()] removes:
    TAB LF VT FF CR, FS GS RS US, SPACE. *)
Definition is_space (c : ascii) : bool :=
  between 9 13 c || between 28 32 c.

Definition is_upper (c : ascii) : bool := between 65 90 c.

Definition is_letter (c : ascii) : bool := between 65 90 c || between 97 122 c.

Definition is_alnum (c : ascii) : bool := is_digit c || is_letter c.

Definition lower (c : ascii) : ascii :=
  if is_upper c then ascii_of_N (code c + 32) else c.

Fixpoint all (p : ascii -> bool) (s : string) : bool :=
  match s with
  | EmptyString => true
  | String c s' => p c && all p s'
  end.

Fixpoint rev_onto (s acc : string) : string :=
  match s with
  | EmptyString => acc
  | String c s' => rev_onto s' (String c acc)
  end.

Definition rev (s : string) : string := rev_onto s "".

Fixpoint lstrip (s : string) : string :=
  match s with
  | String c s' => if is_space c then lstrip s' else s
  | EmptyString => ""
  end.

Definition rstrip (s : string) : string := rev (lstrip (rev s)).

(** [s.strip()] *)
Definition strip (s : string) : string := rstrip (lstrip s).

(** [sub in s] for strings. *)
Fixpoint contains (sub s : string) : bool :=
  prefix sub s ||
  match s with
  | EmptyString => false
  | String _ s' => contains sub s'
  end.

(** [c in s] for a character. *)
Fixpoint in_text (c : ascii) (s : string) : bool :=
  match s with
  | EmptyString => false
  | String x s' => Ascii.eqb x c || in_text c s'
  end.

Definition newline : ascii := "010"%char.
Definition nl : string := String newline "".

(** [s.split('\n')]: the lines of a text. *)
Fixpoint lines (s : string) : list string :=
  match s with
  | EmptyString => [""]
  | String c s' =>
      if Ascii.eqb c newline then "" :: lines s'
      else match lines s' with
           | l :: ls => String c l :: ls
           | [] => [String c ""]
           end
  end.

Fixpoint mem (s : string) (l : list string) : bool :=
  match l with
  | [] => false
  | x :: l' => String.eqb x s || mem s l'
  end.

(** [line in doc.split('\n')] *)
Definition has_line (doc line : string) : bool := mem line (lines doc).

(** [sep.join(l)] *)
Fixpoint join (sep : string) (l : list string) : string :=
  match l with
  | [] => ""
  | [x] => x
  | x :: rest => x ++ sep ++ join sep rest
  end.

(** Decimal text of an integer, as [str(n)] gives it. *)
Definition of_Z (z : Z) : string := NilZero.string_of_int (Z.to_int z).

Definition digit_value (c : ascii) : Z := Z.of_N (code c) - 48.

(** The number a string of digits denotes, read from [acc] on. *)
Fixpoint decimal_from (acc : Z) (s : string) : Z :=
  match s with
  | EmptyString => acc
  | String c s' => decimal_from (10 * acc + digit_value c) s'
  end.

Definition decimal_value (s : string) : Z := decimal_from 0 s.

(** The body of an integer literal: digits, single underscores allowed
    between two digits.  [seen] tells whether the previous character was a
    digit. *)
Fixpoint int_body (s : string) (acc : Z) (seen : bool) : option Z :=
  match s with
  | EmptyString => if seen then Some acc else None
  | String c s' =>
      if is_digit c then int_body s' (10 * acc + digit_value c) true
      else if Ascii.eqb c "_" && seen then int_body s' acc false
      else None
  end.

(** [int(s)] in base 10; [None] stands for [ValueError]. *)
Definition parse_int (s : string) : option Z :=
  match strip s with
  | String "-" body => option_map Z.opp (int_body body 0 false)
  | String "+" body => int_body body 0 false
  | body => int_body body 0 false
  end.

End Text.

(* ================================================================== *)
(** * Exceptions *)

Inductive exn_class : Type :=
| ValueError
| KeyError
| TypeError
| AttributeError
| FileNotFoundError
| YAMLError
| RequestException       (* connection errors, timeouts, invalid URLs *)
| HTTPError               (* raised by raise_for_status *)
| ReError.                (* re.error: a pattern that does not compile *)

Record exn : Type := Exn { exn_cls : exn_class; exn_msg : string }.

Inductive result (A : Type) : Type :=
| Ok (a : A)
| Raise (e : exn).
Arguments Ok {A} a.
Arguments Raise {A} e.

Definition exn_class_eqb (a b : exn_class) : bool :=
  match a, b with
  | ValueError, ValueError | KeyError, KeyError | TypeError, TypeError
  | AttributeError, AttributeError | FileNotFoundError, FileNotFoundError
  | YAMLError, YAMLError | RequestException, RequestException
  | HTTPError, HTTPError | ReError, ReError => true
  | _, _ => false
  end.

(* ================================================================== *)
(** * Regular expressions: the fragment of [re] the script uses *)

Module Re.

(** One-character classes. *)
Inductive cls : Type :=
| Lit (c : ascii)      (* the character c *)
| Not (c : ascii)      (* [^c] *)
| Digit                (* \d *)
| Space.               (* \s *)

(** Patterns: quantifiers are greedy and apply to one-character classes,
    which is all the script's patterns need. *)
Inductive regex : Type :=
| Eps
| One (a : cls)
| Star (a : cls)
| Plus (a : cls)
| Opt (a : cls)
| Group (r : regex)            (* the capturing group *)
| Seq (r1 r2 : regex).

(** [ic] is [re.IGNORECASE]. *)
Definition cls_match (ic : bool) (a : cls) (c : ascii) : bool :=
  match a with
  | Lit x =>
      if ic then Ascii.eqb (Text.lower c) (Text.lower x) else Ascii.eqb c x
  | Not x =>
      negb (if ic then Ascii.eqb (Text.lower c) (Text.lower x)
            else Ascii.eqb c x)
  | Digit => Text.is_digit c
  | Space => Text.is_space c
  end.

(** A match object: [group(0)] and [group(1)]. *)
Record match_obj : Type := Match { group0 : string; group1 : option string }.

Section Backtracking.
Variable R : Type.

(** Greedy [a*]: take as many characters as possible and give them back
    one at a time while the continuation fails. *)
Fixpoint star (p : ascii -> bool) (s : string)
         (k : string -> string -> option R) : option R :=
  match s with
  | String c s' =>
      if p c then
        match star p s' (fun cs rest => k (String c cs) rest) with
        | Some r => Some r
        | None => k "" s
        end
      else k "" s
  | EmptyString => k "" s
  end.

(** [run ic r s g k]: match [r] at the head of [s]; [k] receives the text
    consumed, the rest of the input and the capture. *)
Fixpoint run (ic : bool) (r : regex) (s : string) (g : option string)
         (k : string -> string -> option string -> option R) : option R :=
  match r with
  | Eps => k "" s g
  | One a =>
      match s with
      | String c s' =>
          if cls_match ic a c then k (String c "") s' g else None
      | EmptyString => None
      end
  | Star a => star (cls_match ic a) s (fun cs rest => k cs rest g)
  | Plus a =>
      match s with
      | String c s' =>
          if cls_match ic a c
          then star (cls_match ic a) s'
                    (fun cs rest => k (String c cs) rest g)
          else None
      | EmptyString => None
      end
  | Opt a =>
      match s with
      | String c s' =>
          if cls_match ic a c then
            match k (String c "") s' g with
            | Some r => Some r
            | None => k "" s g
            end
          else k "" s g
      | EmptyString => k "" s g
      end
  | Group r1 => run ic r1 s g (fun cs rest _ => k cs rest (Some cs))
  | Seq r1 r2 =>
      run ic r1 s g (fun c1 s1 g1 =>
      run ic r2 s1 g1 (fun c2 s2 g2 => k (c1 ++ c2) s2 g2))
  end.
End Backtracking.

(** [pattern.match(s)]: a match anchored at the head of [s]. *)
Definition match_here (ic : bool) (r : regex) (s : string) : option match_obj :=
  run ic r s None (fun cs _ g => Some (Match cs g)).

(** The match of [r] at the leftmost position of [s] that has one. *)
Fixpoint search_in (ic : bool) (r : regex) (s : string) : option match_obj :=
  match match_here ic r s with
  | Some m => Some m
  | None =>
      match s with
      | String _ s' => search_in ic r s'
      | EmptyString => None
      end
  end.

(** Non-overlapping matches from left to right; [skip] counts the
    characters still covered by the previous match. *)
Fixpoint scan (ic : bool) (r : regex) (s : string) (skip : nat)
  : list match_obj :=
  match skip with
  | S n =>
      match s with
      | String _ s' => scan ic r s' n
      | EmptyString => []
      end
  | O =>
      match match_here ic r s with
      | Some m =>
          m :: match s with
               | String _ s' => scan ic r s' (String.length (group0 m) - 1)
               | EmptyString => []
               end
      | None =>
          match s with
          | String _ s' => scan ic r s' 0
          | EmptyString => []
          end
      end
  end.

(** For a pattern with one group: the [group(1)] texts of the matches,
    [''] for a group that took no part in the match. *)
Definition findall_in (ic : bool) (r : regex) (s : string) : list string :=
  map (fun m =>
         match group1 m with
         | Some g => g
         | None => ""
         end) (scan ic r s 0).

(** [r1; r2; ...] in sequence. *)
Fixpoint seq (rs : list regex) : regex :=
  match rs with
  | [] => Eps
  | [r] => r
  | r :: rs' => Seq r (seq rs')
  end.

(** ** Pattern texts

    The syntax read: ordinary characters, [\d], [\s], an escaped
    punctuation character, [[^c]], the greedy quantifiers [*], [+] and [?]
    after a one-character item, and at most one group, not nested and not
    quantified.  Any other pattern is reported as not compiling. *)

Inductive token : Type :=
| TAtom (a : cls)
| TQuant (q : ascii)
| TOpen
| TClose.

Definition in_text := Text.in_text.

(** What [\c] stands for. *)
Definition escape (c : ascii) : option cls :=
  if Ascii.eqb c "d" then Some Digit
  else if Ascii.eqb c "s" then Some Space
  else if Text.is_alnum c then None
  else Some (Lit c).

Fixpoint tokens (p : string) : option (list token) :=
  match p with
  | EmptyString => Some []
  | String c rest =>
      if Ascii.eqb c "\" then
        match rest with
        | String e rest' =>
            match escape e with
            | Some a => option_map (cons (TAtom a)) (tokens rest')
            | None => None
            end
        | EmptyString => None
        end
      else if Ascii.eqb c "[" then
        match rest with
        | String c1 (String c2 (String c3 rest')) =>
            if Ascii.eqb c1 "^" && Ascii.eqb c3 "]" && negb (in_text c2 "\]")
            then option_map (cons (TAtom (Not c2))) (tokens rest')
            else None
        | _ => None
        end
      else if Ascii.eqb c "(" then option_map (cons TOpen) (tokens rest)
      else if Ascii.eqb c ")" then option_map (cons TClose) (tokens rest)
      else if in_text c "*+?" then option_map (cons (TQuant c)) (tokens rest)
      else if in_text c ".^${}]|" then None
      else option_map (cons (TAtom (Lit c))) (tokens rest)
  end.

Inductive item : Type :=
| Piece (r : regex)
| Open
| Close.

Definition quantify (q : ascii) (a : cls) : regex :=
  if Ascii.eqb q "*" then Star a
  else if Ascii.eqb q "+" then Plus a
  else Opt a.

(** Each quantifier joins the item before it; a quantifier with nothing to
    repeat, after a parenthesis or after another quantifier is refused. *)
Fixpoint items (ts : list token) : option (list item) :=
  match ts with
  | [] => Some []
  | TAtom a :: TQuant q :: rest =>
      match rest with
      | TQuant _ :: _ => None
      | _ => option_map (cons (Piece (quantify q a))) (items rest)
      end
  | TAtom a :: rest => option_map (cons (Piece (One a))) (items rest)
  | TQuant _ :: _ => None
  | TOpen :: rest => option_map (cons Open) (items rest)
  | TClose :: rest => option_map (cons Close) (items rest)
  end.

(** The pieces up to the first parenthesis, and what follows them. *)
Fixpoint plain_prefix (l : list item) : list regex * list item :=
  match l with
  | Piece r :: rest => let (rs, tl) := plain_prefix rest in (r :: rs, tl)
  | _ => ([], l)
  end.

Definition assemble (l : list item) : option regex :=
  let (before, l1) := plain_prefix l in
  match l1 with
  | [] => Some (seq before)
  | Open :: l2 =>
      let (inside, l3) := plain_prefix l2 in
      match l3 with
      | Close :: l4 =>
          let (after, l5) := plain_prefix l4 in
          match l5 with
          | [] => Some (seq (before ++ Group (seq inside) :: after)%list)
          | _ => None
          end
      | _ => None
      end
  | _ => None
  end.

(** [re.compile(pattern)] *)
Definition compile (pattern : string) : option regex :=
  match tokens pattern with
  | Some ts =>
      match items ts with
      | Some l => assemble l
      | None => None
      end
  | None => None
  end.

Definition NOFLAG : bool := false.
Definition IGNORECASE : bool := true.

Definition error (pattern : string) : exn :=
  Exn ReError ("cannot compile " ++ pattern).

(** [re.search(pattern, s, flags)] *)
Definition search (pattern s : string) (flags : bool) : result (option match_obj) :=
  match compile pattern with
  | Some r => Ok (search_in flags r s)
  | None => Raise (error pattern)
  end.

(** [re.findall(pattern, s)] *)
Definition findall (pattern s : string) : result (list string) :=
  match compile pattern with
  | Some r => Ok (findall_in NOFLAG r s)
  | None => Raise (error pattern)
  end.

(** ** What a match is

    [Matches ic r cs g g']: the pattern [r] matches exactly the text [cs];
    the capture is [g] before and [g'] after. *)
Inductive Matches (ic : bool) : regex -> string -> option string -> option string -> Prop :=
| MEps g : Matches ic Eps "" g g
| MOne a c g : cls_match ic a c = true -> Matches ic (One a) (String c "") g g
| MStar a cs g : Text.all (cls_match ic a) cs = true -> Matches ic (Star a) cs g g
| MPlus a c cs g :
    cls_match ic a c = true -> Text.all (cls_match ic a) cs = true ->
    Matches ic (Plus a) (String c cs) g g
| MOptNone a g : Matches ic (Opt a) "" g g
| MOptSome a c g : cls_match ic a c = true -> Matches ic (Opt a) (String c "") g g
| MGroup r cs g g1 : Matches ic r cs g g1 -> Matches ic (Group r) cs g (Some cs)
| MSeq r1 r2 c1 c2 g g1 g2 :
    Matches ic r1 c1 g g1 -> Matches ic r2 c2 g1 g2 ->
    Matches ic (Seq r1 r2) (c1 ++ c2) g g2.

(** The pattern [r] matches somewhere in [s]. *)
Definition occurs_in (ic : bool) (r : regex) (s : string) : Prop :=
  exists pre cs rest g, s = pre ++ cs ++ rest /\ Matches ic r cs None g.

(** The pattern text compiles and matches somewhere in [s]. *)
Definition occurs (pattern s : string) (flags : bool) : Prop :=
  exists r, compile pattern = Some r /\ occurs_in flags r s.

(** The pattern text compiles to a pattern that [check] accepts. *)
Definition compiles_to (check : regex -> bool) (pattern : string) : bool :=
  match compile pattern with
  | Some r => check r
  | None => false
  end.

(** Every group of [r] is [(\d+)]. *)
Fixpoint digit_groups (r : regex) : bool :=
  match r with
  | Group (Plus Digit) => true
  | Group _ => false
  | Seq r1 r2 => digit_groups r1 && digit_groups r2
  | _ => true
  end.

(** Every match of [r] goes through a group. *)
Fixpoint sets_group (r : regex) : bool :=
  match r with
  | Group _ => true
  | Seq r1 r2 => sets_group r1 || sets_group r2
  | _ => false
  end.

(** Every match of [r] goes through a group, and every group is [(\d+)]. *)
Definition digit_group_only (r : regex) : bool := digit_groups r && sets_group r.

End Re.

(* ================================================================== *)
(** * Python values and dictionaries *)

(** A [dict] with string keys, in insertion order; keys are unique in every
    dictionary built with [dict_set]. *)
Definition dict (V : Type) : Type := list (string * V).

Section Dict.
Variable V : Type.

(** [d.get(k)] *)
Fixpoint dict_get (d : dict V) (k : string) : option V :=
  match d with
  | [] => None
  | (k', v) :: d' => if String.eqb k' k then Some v else dict_get d' k
  end.

(** [k in d] *)
Definition dict_in (k : string) (d : dict V) : bool :=
  match dict_get d k with
  | Some _ => true
  | None => false
  end.

(** [d.get(k, dflt)] *)
Definition dict_get_or (d : dict V) (k : string) (dflt : V) : V :=
  match dict_get d k with
  | Some v => v
  | None => dflt
  end.

(** [d[k] = v]: an existing key keeps its place, a new one goes last. *)
Fixpoint dict_set (d : dict V) (k : string) (v : V) : dict V :=
  match d with
  | [] => [(k, v)]
  | (k', v') :: d' =>
      if String.eqb k' k then (k', v) :: d'
      else (k', v') :: dict_set d' k v
  end.

(** [list(d)] *)
Definition dict_keys (d : dict V) : list string := map fst d.
End Dict.

Inductive value : Type :=
| VNone
| VBool (b : bool)
| VInt (z : Z)
| VStr (s : string)
| VList (l : list value)
| VDict (d : list (string * value)).

Module Py.

Definition hex_digit (n : N) : ascii :=
  if (n <? 10)%N then ascii_of_N (48 + n) else ascii_of_N (87 + n).

(** One character of [repr(s)], [q] being the quote chosen. *)
Definition repr_char (q c : ascii) : string :=
  let n := Text.code c in
  if Ascii.eqb c q || Ascii.eqb c "\" then String "\" (String c "")
  else if Ascii.eqb c "009" then "\t"
  else if Ascii.eqb c "010" then "\n"
  else if Ascii.eqb c "013" then "\r"
  else if (n <? 32)%N || (n =? 127)%N
       then String "\" (String "x" (String (hex_digit (n / 16))
                                       (String (hex_digit (n mod 16)) "")))
  else String c "".

Fixpoint repr_chars (q : ascii) (s : string) : string :=
  match s with
  | EmptyString => ""
  | String c s' => repr_char q c ++ repr_chars q s'
  end.

Definition squote : ascii := "'"%char.
Definition dquote : ascii := ascii_of_N 34.

(** [repr(s)] of a string: single quotes, unless the text has a single
    quote and no double quote. *)
Definition repr_str (s : string) : string :=
  let q := if Text.contains (String squote "") s
              && negb (Text.contains (String dquote "") s)
           then dquote else squote in
  String q (repr_chars q s ++ String q "").

(** [repr(v)] *)
Fixpoint repr (v : value) : string :=
  match v with
  | VNone => "None"
  | VBool true => "True"
  | VBool false => "False"
  | VInt z => Text.of_Z z
  | VStr s => repr_str s
  | VList l => "[" ++ Text.join ", " (map repr l) ++ "]"
  | VDict d =>
      "{" ++ Text.join ", "
               (map (fun kv => match kv with
                               | (k, v') => repr_str k ++ ": " ++ repr v'
                               end) d) ++ "}"
  end.

(** [str(v)], which is also what [f"{v}"] inserts. *)
Definition str (v : value) : string :=
  match v with
  | VStr s => s
  | _ => repr v
  end.

(** [a == b] *)
Fixpoint eqb (a b : value) : bool :=
  match a, b with
  | VNone, VNone => true
  | VBool x, VBool y => Bool.eqb x y
  | VBool x, VInt y => Z.eqb (if x then 1 else 0) y
  | VInt x, VBool y => Z.eqb x (if y then 1 else 0)
  | VInt x, VInt y => Z.eqb x y
  | VStr x, VStr y => String.eqb x y
  | VList l1, VList l2 =>
      (fix go (xs ys : list value) : bool :=
         match xs, ys with
         | [], [] => true
         | x :: xs', y :: ys' => eqb x y && go xs' ys'
         | _, _ => false
         end) l1 l2
  | VDict d1, VDict d2 =>
      Nat.eqb (List.length d1) (List.length d2) &&
      forallb (fun kv => match kv with
                         | (k, v) =>
                             match dict_get d2 k with
                             | Some w => eqb v w
                             | None => false
                             end
                         end) d1
  | _, _ => false
  end.

End Py.

(* ================================================================== *)
(** * The world *)

(** What [datetime.now()] returns. *)
Record datetime : Type := Datetime {
  year : nat; month : nat; day : nat;
  hour : nat; minute : nat; second : nat; microsecond : nat }.

(** A [requests.Response]. *)
Record response : Type := Response {
  status_code : Z; reason : string; url : string; text : string }.

(** What the outside world sees of a run, in order. *)
Inductive event : Type :=
| Print (line : string)                      (* print(...) *)
| HttpGet (target : string) (agent : string) (* session.get(url) *)
| Sleep (seconds : Z).                       (* time.sleep(n) *)

(** The answer to one request: an exception of [requests], or a response. *)
Inductive http_result : Type :=
| Failed (e : exn)
| Answer (r : response).

(** The world a run lives in.  The network and the clock may answer
    differently as the run goes on: they see the history so far.  The file
    system may refuse to open a path for writing (a missing directory, no
    permission), with the error [refuses] gives. *)
Record World : Type := mkWorld {
  files : dict string;                           (* path -> content *)
  log : list event;                              (* oldest first *)
  net : list event -> string -> http_result;
  clock : list event -> datetime;
  refuses : string -> option exn }.

Definition set_files (w : World) (fs : dict string) : World :=
  mkWorld fs (log w) (net w) (clock w) (refuses w).

Definition emit (e : event) (w : World) : World :=
  mkWorld (files w) (log w ++ [e])%list (net w) (clock w) (refuses w).

(** Computations that act on the world and may raise. *)
Definition M (A : Type) : Type := World -> result A * World.

Definition ret {A} (a : A) : M A := fun w => (Ok a, w).
Definition raise {A} (e : exn) : M A := fun w => (Raise e, w).

Definition bind {A B} (m : M A) (k : A -> M B) : M B :=
  fun w =>
    match m w with
    | (Ok a, w') => k a w'
    | (Raise e, w') => (Raise e, w')
    end.

Notation "x <- m ;; k" := (bind m (fun x => k))
  (at level 61, m at next level, right associativity).
Notation "m ;;; k" := (bind m (fun _ => k))
  (at level 61, right associativity).

(** [try: body  except <classes> as e: handler e]; an exception the clause
    does not name propagates. *)
Definition try_except {A} (body : M A) (catches : exn -> bool)
           (handler : exn -> M A) : M A :=
  fun w =>
    match body w with
    | (Ok a, w') => (Ok a, w')
    | (Raise e, w') => if catches e then handler e w' else (Raise e, w')
    end.

(** [except Exception]: every exception of the model is one. *)
Definition any_exception (_ : exn) : bool := true.

Definition is_class (c : exn_class) (e : exn) : bool := exn_class_eqb (exn_cls e) c.

(** A computation without effects that may raise. *)
Definition lift {A} (r : result A) : M A := fun w => (r, w).

Definition print (line : string) : M unit := fun w => (Ok tt, emit (Print line) w).
Definition sleep (seconds : Z) : M unit := fun w => (Ok tt, emit (Sleep seconds) w).
Definition now : M datetime := fun w => (Ok (clock w (log w)), w).

(* ================================================================== *)
(** * The scrapers *)

Definition quot : string := String Py.dquote "".

(** [match.group(1).strip()] *)
Definition group_strip (m : Re.match_obj) : result string :=
  match Re.group1 m with
  | Some g => Ok (Text.strip g)
  | None => Raise (Exn AttributeError "'NoneType' object has no attribute 'strip'")
  end.

(** [int(x)] for [x] a group of a match or an item of [findall]. *)
Definition int_of (x : option string) : result Z :=
  match x with
  | Some g =>
      match Text.parse_int g with
      | Some z => Ok z
      | None =>
          Raise (Exn ValueError
                     ("invalid literal for int() with base 10: " ++ Py.repr_str g))
      end
  | None =>
      Raise (Exn TypeError
                 "int() argument must be a string, a bytes-like object or a real number, not 'NoneType'")
  end.

Module ProfileScraper.

(** The [requests.Session] a scraper holds: its headers. *)
Record session : Type := Session { headers : dict string }.

Definition user_agent : string :=
  "Mozilla/5.0 (Windows NT 10.0; Win64; x64) AppleWebKit/537.36 (KHTML, like Gecko) Chrome/91.0.4472.124 Safari/537.36".

Definition __init__ : session := Session (dict_set [] "User-Agent" user_agent).

(** [session.get(target)].  A target that is not a string is refused by
    [requests] before anything is sent. *)
Definition get (s : session) (target : value) : M response :=
  match target with
  | VStr u =>
      fun w =>
        let w' := emit (HttpGet u (dict_get_or (headers s) "User-Agent" "")) w in
        match net w (log w) u with
        | Failed e => (Raise e, w')
        | Answer r => (Ok r, w')
        end
  | _ =>
      raise (Exn RequestException
                 ("Invalid URL " ++ Py.repr_str (Py.str target)
                  ++ ": No scheme supplied. Perhaps you meant https://"
                  ++ Py.str target ++ "?"))
  end.

(** [response.raise_for_status()] *)
Definition raise_for_status (r : response) : M unit :=
  let st := status_code r in
  if (400 <=? st)%Z && (st <? 500)%Z then
    raise (Exn HTTPError (Text.of_Z st ++ " Client Error: " ++ reason r
                          ++ " for url: " ++ url r))
  else if (500 <=? st)%Z && (st <? 600)%Z then
    raise (Exn HTTPError (Text.of_Z st ++ " Server Error: " ++ reason r
                          ++ " for url: " ++ url r))
  else ret tt.

End ProfileScraper.

Module ResearchGateProfile.
Import Re.

Record t : Type := New { session : ProfileScraper.session; profile_url : value }.

Definition __init__ (profile_url : value) : t := New ProfileScraper.__init__ profile_url.

Definition name_pattern : string := "<h1[^>]*>([^<]+)</h1>".
Definition institution_pattern : string := "institution[^>]*>([^<]+)</[^>]*>".
Definition publications_pattern : string := "(\d+)\s*Publications?".
Definition citations_pattern : string := "(\d+)\s*Citations?".
Definition h_index_pattern : string := "h-index[^>]*>(\d+)".

Definition _extract_name (html : string) : result string :=
  match search name_pattern html NOFLAG with
  | Raise e => Raise e
  | Ok (Some m) => group_strip m
  | Ok None => Ok ""
  end.

Definition _extract_institution (html : string) : result string :=
  match search institution_pattern html IGNORECASE with
  | Raise e => Raise e
  | Ok (Some m) => group_strip m
  | Ok None => Ok ""
  end.

Definition _extract_publications (html : string) : result Z :=
  match search publications_pattern html IGNORECASE with
  | Raise e => Raise e
  | Ok (Some m) => int_of (group1 m)
  | Ok None => Ok 0%Z
  end.

Definition _extract_citations (html : string) : result Z :=
  match search citations_pattern html IGNORECASE with
  | Raise e => Raise e
  | Ok (Some m) => int_of (group1 m)
  | Ok None => Ok 0%Z
  end.

Definition _extract_research_interests (html : string) : result (list value) :=
  Ok [].

Definition _extract_h_index (html : string) : result Z :=
  match search h_index_pattern html IGNORECASE with
  | Raise e => Raise e
  | Ok (Some m) => int_of (group1 m)
  | Ok None => Ok 0%Z
  end.

Definition get_profile_data (self : t) : M (dict value) :=
  try_except
    (response <- ProfileScraper.get (session self) (profile_url self) ;;
     ProfileScraper.raise_for_status response ;;;
     name <- lift (_extract_name (text response)) ;;
     institution <- lift (_extract_institution (text response)) ;;
     publications <- lift (_extract_publications (text response)) ;;
     citations <- lift (_extract_citations (text response)) ;;
     research_interests <- lift (_extract_research_interests (text response)) ;;
     h_index <- lift (_extract_h_index (text response)) ;;
     ret [("name", VStr name);
          ("institution", VStr institution);
          ("publications", VInt publications);
          ("citations", VInt citations);
          ("research_interests", VList research_interests);
          ("h_index", VInt h_index)])
    any_exception
    (fun e => print ("Error scraping ResearchGate: " ++ exn_msg e) ;;; ret []).

End ResearchGateProfile.

Module GoogleScholarProfile.
Import Re.

Record t : Type := New { session : ProfileScraper.session; profile_url : value }.

Definition __init__ (profile_url : value) : t := New ProfileScraper.__init__ profile_url.

(** [<div[^>]*id="gsc_prf_in"[^>]*>([^<]+)</div>] *)
Definition name_pattern : string :=
  "<div[^>]*id=" ++ quot ++ "gsc_prf_in" ++ quot ++ "[^>]*>([^<]+)</div>".

(** [<td[^>]*class="gsc_rsb_std"[^>]*>(\d+)</td>], the pattern of the three
    numeric extractors. *)
Definition cell_pattern : string :=
  "<td[^>]*class=" ++ quot ++ "gsc_rsb_std" ++ quot ++ "[^>]*>(\d+)</td>".

Definition _extract_name (html : string) : result string :=
  match search name_pattern html NOFLAG with
  | Raise e => Raise e
  | Ok (Some m) => group_strip m
  | Ok None => Ok ""
  end.

Definition _extract_citations (html : string) : result Z :=
  match search cell_pattern html NOFLAG with
  | Raise e => Raise e
  | Ok (Some m) => int_of (group1 m)
  | Ok None => Ok 0%Z
  end.

Definition _extract_h_index (html : string) : result Z :=
  match findall cell_pattern html with
  | Raise e => Raise e
  | Ok matches =>
      if (1 <? List.length matches)%nat then int_of (nth_error matches 1)
      else Ok 0%Z
  end.

Definition _extract_i10_index (html : string) : result Z :=
  match findall cell_pattern html with
  | Raise e => Raise e
  | Ok matches =>
      if (2 <? List.length matches)%nat then int_of (nth_error matches 2)
      else Ok 0%Z
  end.

Definition _extract_publications (html : string) : result (list value) :=
  Ok [].

Definition get_profile_data (self : t) : M (dict value) :=
  try_except
    (response <- ProfileScraper.get (session self) (profile_url self) ;;
     ProfileScraper.raise_for_status response ;;;
     name <- lift (_extract_name (text response)) ;;
     citations <- lift (_extract_citations (text response)) ;;
     h_index <- lift (_extract_h_index (text response)) ;;
     i10_index <- lift (_extract_i10_index (text response)) ;;
     publications <- lift (_extract_publications (text response)) ;;
     ret [("name", VStr name);
          ("citations", VInt citations);
          ("h_index", VInt h_index);
          ("i10_index", VInt i10_index);
          ("publications", VList publications)])
    any_exception
    (fun e => print ("Error scraping Google Scholar: " ++ exn_msg e) ;;; ret []).

End GoogleScholarProfile.

Module LinkedInProfile.

Record t : Type := New { session : ProfileScraper.session; profile_url : value }.

Definition __init__ (profile_url : value) : t := New ProfileScraper.__init__ profile_url.

Definition get_profile_data (self : t) : M (dict value) :=
  ret [("current_position", VStr "");
       ("education", VStr "");
       ("experience", VList [])].

End LinkedInProfile.

(* ================================================================== *)
(** * Files and the YAML library *)

(** [open(path, 'r').read()]: a missing file raises [FileNotFoundError]. *)
Definition read_file (path : string) : M string :=
  fun w =>
    match dict_get (files w) path with
    | Some content => (Ok content, w)
    | None =>
        (Raise (Exn FileNotFoundError
                    ("[Errno 2] No such file or directory: " ++ Py.repr_str path)), w)
    end.

(** [open(path, 'w').write(content)]: the file is created or overwritten.
    A path that is not a string is refused (an integer would name a file
    descriptor, which this file system does not have). *)
Definition write_file (path : value) (content : string) : M unit :=
  match path with
  | VStr p =>
      fun w =>
        match refuses w p with
        | Some e => (Raise e, w)
        | None => (Ok tt, set_files w (dict_set (files w) p content))
        end
  | _ => raise (Exn TypeError "expected str, bytes or os.PathLike object")
  end.

(** The two entry points of PyYAML the script calls:
    [yaml.safe_load(text)] and [yaml.dump(v, default_flow_style=False)]. *)
Class Yaml : Type := {
  safe_load : string -> result value;
  dump : value -> string }.

(** [v[k]] for a string key. *)
Definition subscript (v : value) (k : string) : result value :=
  match v with
  | VDict d =>
      match dict_get d k with
      | Some x => Ok x
      | None => Raise (Exn KeyError (Py.repr_str k))
      end
  | VStr _ => Raise (Exn TypeError "string indices must be integers")
  | VList _ => Raise (Exn TypeError "list indices must be integers or slices, not str")
  | _ => Raise (Exn TypeError "object is not subscriptable")
  end.

(** [k in v] for a string [k]. *)
Definition contains (k : string) (v : value) : result bool :=
  match v with
  | VDict d => Ok (dict_in k d)
  | VStr s => Ok (Text.contains k s)
  | VList l => Ok (existsb (Py.eqb (VStr k)) l)
  | _ => Raise (Exn TypeError "argument is not iterable")
  end.

(** [v.get(k, dflt)]: only a dictionary has the method. *)
Definition get_method (v : value) (k : string) (dflt : value) : result value :=
  match v with
  | VDict d => Ok (dict_get_or d k dflt)
  | _ => Raise (Exn AttributeError "object has no attribute 'get'")
  end.

(* ================================================================== *)
(** * Dates *)

Fixpoint zeros (n : nat) : string :=
  match n with
  | O => ""
  | S n' => String "0" (zeros n')
  end.

(** [n] in decimal, padded with zeros on the left to [width] characters. *)
Definition pad (width n : nat) : string :=
  let s := Text.of_Z (Z.of_nat n) in
  zeros (width - String.length s) ++ s.

(** [dt.strftime('%Y-%m-%d %H:%M:%S')] *)
Definition strftime (dt : datetime) : string :=
  pad 4 (year dt) ++ "-" ++ pad 2 (month dt) ++ "-" ++ pad 2 (day dt) ++ " "
  ++ pad 2 (hour dt) ++ ":" ++ pad 2 (minute dt) ++ ":" ++ pad 2 (second dt).

(** [str(dt)] *)
Definition datetime_str (dt : datetime) : string :=
  strftime dt ++
  match microsecond dt with
  | O => ""
  | us => "." ++ pad 6 us
  end.

(* ================================================================== *)
(** * The dashboard updater *)

Module DashboardUpdater.

Record t : Type := New { config : value; readme_path : value }.

Definition default_config : value :=
  VDict [
    ("profiles", VDict [
       ("researchgate", VStr "https://www.researchgate.net/profile/Yu-Hao-Tseng");
       ("linkedin", VStr "https://www.linkedin.com/in/yu-hao-tseng-70316221b/");
       ("google_scholar", VStr "https://scholar.google.com/citations?user=_zozF1AAAAAJ")]);
    ("readme_path", VStr "README.md");
    ("update_frequency", VStr "daily");
    ("sections", VDict [
       ("about", VBool true);
       ("publications", VBool true);
       ("citations", VBool true);
       ("research_interests", VBool true);
       ("education", VBool true);
       ("experience", VBool true)])].

(** The template of [generate_readme], cut at its five insertion points. *)
Definition readme_head : string :=
"# Yu-Hao Tseng

## About Me
I'm a researcher at National Taiwan Ocean University, specializing in oceanography and marine sciences.

## 📊 Research Metrics
".

Definition readme_tail : string :=
"

## 🔬 Research Interests
- Ocean Current Analysis
- Marine Dynamics
- Geographic Information Systems (GIS)
- Data Visualization

## 📚 Education
- **National Taiwan Ocean University**
  - Department of Marine Environmental Informatics

## 🔗 Links
- [ResearchGate](https://www.researchgate.net/profile/Yu-Hao-Tseng)
- [Google Scholar](https://scholar.google.com/citations?user=_zozF1AAAAAJ)
- [LinkedIn](https://www.linkedin.com/in/yu-hao-tseng-70316221b/)

## 💻 Current Projects
- Ocean Current Observation and Analysis
- GMT (Generic Mapping Tools) Applications
- MATLAB Ocean Dynamics Modeling
- OpenDrift Trajectory Modeling

## 📈 Repository Statistics
![GitHub Stats](https://github-readme-stats.vercel.app/api?username=ja754969&show_icons=true&theme=radical)

---
*Last updated: ".

(** [data.get(source, {}).get(field, 'N/A')] *)
Definition metric (data : dict (dict value)) (source field : string) : value :=
  dict_get_or (dict_get_or data source []) field (VStr "N/A").

(** The text between the template's head and tail. *)
Definition metrics_block (data : dict (dict value)) : string :=
  "- **Publications**: " ++ Py.str (metric data "researchgate" "publications")
  ++ Text.nl ++
  "- **Citations**: " ++ Py.str (metric data "google_scholar" "citations")
  ++ Text.nl ++
  "- **H-index**: " ++ Py.str (metric data "google_scholar" "h_index")
  ++ Text.nl ++
  "- **i10-index**: " ++ Py.str (metric data "google_scholar" "i10_index").

(** [generate_readme(self, data)]; it makes no use of [self]. *)
Definition generate_readme (data : dict (dict value)) : M string :=
  dt <- now ;;
  ret (readme_head ++ metrics_block data ++ readme_tail
       ++ strftime dt ++ "*" ++ Text.nl).

Definition update_readme (self : t) (content : string) : M unit :=
  write_file (readme_path self) content ;;;
  dt <- now ;;
  print ("README.md updated successfully at " ++ datetime_str dt).

Definition collect_data (self : t) : M (dict (dict value)) :=
  let data : dict (dict value) := [] in
  (* ResearchGate *)
  profiles <- lift (subscript (config self) "profiles") ;;
  present <- lift (contains "researchgate" profiles) ;;
  data <- (if present : bool then
             profiles <- lift (subscript (config self) "profiles") ;;
             target <- lift (subscript profiles "researchgate") ;;
             let rg_scraper := ResearchGateProfile.__init__ target in
             profile <- ResearchGateProfile.get_profile_data rg_scraper ;;
             sleep 2 ;;;
             ret (dict_set data "researchgate" profile)
           else ret data) ;;
  (* Google Scholar *)
  profiles <- lift (subscript (config self) "profiles") ;;
  present <- lift (contains "google_scholar" profiles) ;;
  data <- (if present : bool then
             profiles <- lift (subscript (config self) "profiles") ;;
             target <- lift (subscript profiles "google_scholar") ;;
             let gs_scraper := GoogleScholarProfile.__init__ target in
             profile <- GoogleScholarProfile.get_profile_data gs_scraper ;;
             sleep 2 ;;;
             ret (dict_set data "google_scholar" profile)
           else ret data) ;;
  (* LinkedIn (limited) *)
  profiles <- lift (subscript (config self) "profiles") ;;
  present <- lift (contains "linkedin" profiles) ;;
  data <- (if present : bool then
             profiles <- lift (subscript (config self) "profiles") ;;
             target <- lift (subscript profiles "linkedin") ;;
             let li_scraper := LinkedInProfile.__init__ target in
             profile <- LinkedInProfile.get_profile_data li_scraper ;;
             ret (dict_set data "linkedin" profile)
           else ret data) ;;
  ret data.

Definition run_update (self : t) : M unit :=
  print "Starting dashboard update..." ;;;
  data <- collect_data self ;;
  readme_content <- generate_readme data ;;
  update_readme self readme_content ;;;
  print "Dashboard update completed!".

Section WithYaml.
Context {Y : Yaml}.

Definition _create_default_config (config_file : string) : M value :=
  write_file (VStr config_file) (dump default_config) ;;;
  ret default_config.

Definition _load_config (config_file : string) : M value :=
  try_except
    (content <- read_file config_file ;;
     lift (safe_load content))
    (is_class FileNotFoundError)
    (fun _ => _create_default_config config_file).

Definition __init__ (config_file : string) : M t :=
  config <- _load_config config_file ;;
  readme_path <- lift (get_method config "readme_path" (VStr "README.md")) ;;
  ret (New config readme_path).

Definition main : M unit :=
  updater <- __init__ "dashboard_config.yaml" ;;
  run_update updater.

End WithYaml.

End DashboardUpdater.

(* ================================================================== *)
(** * A model of PyYAML on block-style documents

    [dump] writes block style with sorted keys, as
    [yaml.dump(v, default_flow_style=False)] does.  A string that is plainly
    a word is written as it is; any other is written in single quotes, where
    PyYAML may choose another style (the script dumps the default
    configuration only, whose strings are all plain words).  [load] reads
    nested block mappings of printable ASCII with plain or single-quoted
    scalars and reports every other document as an error, so it refuses
    more than PyYAML does. *)

Module BlockYaml.

Definition is_alnum := Text.is_alnum.
Definition is_letter := Text.is_letter.

Fixpoint lower_str (s : string) : string :=
  match s with
  | EmptyString => ""
  | String c s' => String (Text.lower c) (lower_str s')
  end.

Definition mem := Text.mem.

(** Words the resolver reads as a boolean or as null. *)
Definition true_words : list string := ["yes"; "Yes"; "YES"; "true"; "True"; "TRUE"; "on"; "On"; "ON"].
Definition false_words : list string := ["no"; "No"; "NO"; "false"; "False"; "FALSE"; "off"; "Off"; "OFF"].
Definition null_words : list string := ["~"; "null"; "Null"; "NULL"].
Definition reserved : list string := ["y"; "n"; "yes"; "no"; "true"; "false"; "on"; "off"; "null"].

Definition word_char (c : ascii) : bool :=
  is_alnum c || mem (String c "") ["/"; "."; "-"; "_"; ":"; "?"; "="].

Fixpoint last_is (c : ascii) (s : string) : bool :=
  match s with
  | EmptyString => false
  | String x EmptyString => Ascii.eqb x c
  | String _ s' => last_is c s'
  end.

(** A string the emitter writes as it is. *)
Definition plain (s : string) : bool :=
  match s with
  | EmptyString => false
  | String c _ =>
      is_letter c && Text.all word_char s && negb (last_is ":" s)
      && negb (mem (lower_str s) reserved)
  end.

Fixpoint double_quotes (s : string) : string :=
  match s with
  | EmptyString => ""
  | String c s' =>
      if Ascii.eqb c Py.squote then String c (String c (double_quotes s'))
      else String c (double_quotes s')
  end.

Definition string_text (s : string) : string :=
  if plain s then s
  else String Py.squote (double_quotes s ++ String Py.squote "").

(** The one-line form of a scalar or of an empty collection, if [v] has
    one. *)
Definition inline (v : value) : option string :=
  match v with
  | VNone => Some "null"
  | VBool true => Some "true"
  | VBool false => Some "false"
  | VInt z => Some (Text.of_Z z)
  | VStr s => Some (string_text s)
  | VList [] => Some "[]"
  | VDict [] => Some "{}"
  | _ => None
  end.

Definition is_list (v : value) : bool :=
  match v with
  | VList _ => true
  | _ => false
  end.

Fixpoint insert_sorted (e : string * list string) (l : list (string * list string))
  : list (string * list string) :=
  match l with
  | [] => [e]
  | x :: l' => if String.leb (fst e) (fst x) then e :: l else x :: insert_sorted e l'
  end.

Definition sort_keys (l : list (string * list string)) : list (string * list string) :=
  fold_right insert_sorted [] l.

Definition indent (l : string) : string := "  " ++ l.

(** The lines of [v] in block style. *)
Fixpoint node_lines (v : value) : list string :=
  match inline v with
  | Some t => [t]
  | None =>
      match v with
      | VDict d =>
          flat_map snd
            (sort_keys
               (map (fun kv =>
                       match kv with
                       | (k, v') =>
                           (k, match inline v' with
                               | Some t => [string_text k ++ ": " ++ t]
                               | None =>
                                   (string_text k ++ ":")
                                     :: (if is_list v' then node_lines v'
                                         else map indent (node_lines v'))
                               end)
                       end) d))
      | VList l =>
          flat_map (fun item =>
                      match node_lines item with
                      | [] => []
                      | first :: rest => ("- " ++ first) :: map indent rest
                      end) l
      | _ => []
      end
  end.

Definition unlines (ls : list string) : string :=
  fold_right (fun l acc => l ++ Text.nl ++ acc) "" ls.

(** [yaml.dump(v, default_flow_style=False)]; a document that is a bare
    scalar is closed by the end marker. *)
Definition dump (v : value) : string :=
  match v with
  | VList _ | VDict _ => unlines (node_lines v)
  | _ => unlines (node_lines v ++ ["..."])
  end.

(** ** Loading *)

Definition yaml_error (msg : string) : exn := Exn YAMLError msg.

Fixpoint count_indent (s : string) : nat * string :=
  match s with
  | String " " s' => let (n, r) := count_indent s' in (S n, r)
  | _ => (O, s)
  end.

(** Cut [s] at the first colon that a space or the end of the line
    follows. *)
Fixpoint split_key (s : string) : option (string * string) :=
  match s with
  | EmptyString => None
  | String c s' =>
      if Ascii.eqb c ":" &&
         match s' with
         | EmptyString => true
         | String c' _ => Ascii.eqb c' " "
         end
      then Some ("", s')
      else match split_key s' with
           | Some (k, r) => Some (String c k, r)
           | None => None
           end
  end.

(** The inside of a single-quoted scalar, up to its closing quote, which
    must end the text. *)
Fixpoint unquote (s : string) : option string :=
  match s with
  | EmptyString => None
  | String c s' =>
      if Ascii.eqb c Py.squote then
        match s' with
        | EmptyString => Some ""
        | String c' s'' =>
            if Ascii.eqb c' Py.squote
            then option_map (String c) (unquote s'')
            else None
        end
      else option_map (String c) (unquote s')
  end.

Definition decimal (s : string) : bool :=
  match s with
  | "0" => true
  | String c _ => Text.between 49 57 c && Text.all Text.is_digit s
  | EmptyString => false
  end.

(** The value of a plain scalar. *)
Definition resolve (s : string) : result value :=
  if mem s true_words then Ok (VBool true)
  else if mem s false_words then Ok (VBool false)
  else if mem s null_words then Ok VNone
  else if decimal s then
         match Text.int_body s 0 false with
         | Some z => Ok (VInt z)
         | None => Raise (yaml_error "integer")
         end
  else match s with
       | String c _ =>
           if is_letter c && negb (Text.contains ": " s) && negb (last_is ":" s)
              && negb (Text.contains " #" s)
           then Ok (VStr s)
           else Raise (yaml_error "scalar outside the block fragment")
       | EmptyString => Ok VNone
       end.

(** The value written after [key:] on the same line, if any. *)
Definition inline_value (s : string) : result (option value) :=
  match Text.strip s with
  | EmptyString => Ok None
  | String c body as t =>
      if Ascii.eqb c Py.squote then
        match unquote body with
        | Some u => Ok (Some (VStr u))
        | None => Raise (yaml_error "found unexpected end of stream in a quoted scalar")
        end
      else match resolve t with
           | Ok v => Ok (Some v)
           | Raise e => Raise e
           end
  end.

Definition printable (c : ascii) : bool := Text.between 32 126 c.

Definition key_char (c : ascii) : bool :=
  is_alnum c || Text.in_text c "_-.".

(** A key the loader reads: a word that resolves to a string. *)
Definition plain_key (k : string) : bool :=
  Text.all key_char k &&
  match resolve k with
  | Ok (VStr _) => true
  | _ => false
  end.

(** One line of a block mapping: its indentation, key and inline value;
    [None] for a blank line or a comment. *)
Definition parse_line (l : string) : result (option (nat * string * option value)) :=
  let (n, body) := count_indent l in
  match body with
  | EmptyString => Ok None
  | String c _ =>
      if negb (Text.all printable body) then
        Raise (yaml_error "line outside the block fragment")
      else if Ascii.eqb c "#" then Ok None
      else match split_key body with
           | None => Raise (yaml_error "could not find expected ':'")
           | Some (k, r) =>
               if plain_key k then
                 match inline_value r with
                 | Ok v => Ok (Some (n, k, v))
                 | Raise e => Raise e
                 end
               else Raise (yaml_error "key outside the block fragment")
           end
  end.

(** A mapping under construction: its indentation, its entries so far and
    the key still waiting for its value. *)
Record frame : Type := Frame {
  f_indent : nat; f_entries : dict value; f_pending : option string }.

(** The entries of a frame, a key left waiting being null. *)
Definition frame_entries (f : frame) : dict value :=
  match f_pending f with
  | Some k => dict_set (f_entries f) k VNone
  | None => f_entries f
  end.

(** Give the finished mapping [d] to the key waiting in [parent]. *)
Definition attach (d : dict value) (parent : frame) : result frame :=
  match f_pending parent with
  | Some k => Ok (Frame (f_indent parent) (dict_set (f_entries parent) k (VDict d)) None)
  | None => Raise (yaml_error "mapping values are not allowed here")
  end.

(** Close the frames indented deeper than [i], [top] being the innermost;
    the outermost frame stays open. *)
Fixpoint collapse (i : nat) (top : frame) (rest : list frame) : result (list frame) :=
  match rest with
  | parent :: rest' =>
      if (i <? f_indent top)%nat then
        match attach (frame_entries top) parent with
        | Ok parent' => collapse i parent' rest'
        | Raise e => Raise e
        end
      else Ok (top :: rest)
  | [] => Ok [top]
  end.

(** Take in one line of the mapping. *)
Definition step (stack : list frame) (i : nat) (k : string) (v : option value)
  : result (list frame) :=
  let add (f : frame) : frame :=
    match v with
    | Some x => Frame (f_indent f) (dict_set (frame_entries f) k x) None
    | None => Frame (f_indent f) (frame_entries f) (Some k)
    end in
  match stack with
  | [] => Ok [add (Frame i [] None)]
  | top :: rest =>
      match collapse i top rest with
      | Ok (f :: below) =>
          if (f_indent f =? i)%nat then Ok (add f :: below)
          else if (f_indent f <? i)%nat then
                 match f_pending f with
                 | Some _ => Ok (add (Frame i [] None) :: f :: below)
                 | None => Raise (yaml_error "mapping values are not allowed here")
                 end
          else Raise (yaml_error "bad indentation of a mapping entry")
      | Ok [] => Raise (yaml_error "bad indentation of a mapping entry")
      | Raise e => Raise e
      end
  end.

Fixpoint load_lines (ls : list string) (stack : list frame) : result (list frame) :=
  match ls with
  | [] => Ok stack
  | l :: ls' =>
      match parse_line l with
      | Ok None => load_lines ls' stack
      | Ok (Some (i, k, v)) =>
          match step stack i k v with
          | Ok stack' => load_lines ls' stack'
          | Raise e => Raise e
          end
      | Raise e => Raise e
      end
  end.

(** [yaml.safe_load(text)]; a document without content is [None]. *)
Definition load (text : string) : result value :=
  match load_lines (Text.lines text) [] with
  | Ok [] => Ok VNone
  | Ok (top :: rest) =>
      match collapse 0 top rest with
      | Ok [f] => Ok (VDict (frame_entries f))
      | Ok _ => Raise (yaml_error "bad indentation of a mapping entry")
      | Raise e => Raise e
      end
  | Raise e => Raise e
  end.

End BlockYaml.

#[global] Instance block_yaml : Yaml :=
  {| safe_load := BlockYaml.load; dump := BlockYaml.dump |}.

(* ================================================================== *)
(** * Vocabulary of the specification *)

(** A capture, if there is one, is a non-empty string of digits. *)
Definition digits_opt (g : option string) : Prop :=
  match g with
  | Some ds => Text.all Text.is_digit ds = true /\ ds <> ""
  | None => True
  end.

(** [f] never raises; where the pattern matches, it returns the stripped
    capture of the leftmost match, and the empty string where it does
    not. *)
Definition text_extraction (pattern : string) (flags : bool)
           (f : string -> result string) (html : string) : Prop :=
  (exists v, f html = Ok v) /\
  (Re.occurs pattern html flags ->
   exists m g, Re.search pattern html flags = Ok (Some m) /\
               Re.group1 m = Some g /\ f html = Ok (Text.strip g)) /\
  (~ Re.occurs pattern html flags -> f html = Ok "").


(** The number at position [i] of a list of captures, 0 past its end. *)
Definition nth_int (i : nat) (l : list string) : Z :=
  match nth_error l i with
  | Some ds => Text.decimal_value ds
  | None => 0%Z
  end.



(** The request for [target], made in world [w], fails: [requests] refuses
    the target or raises, or the answer has an error status. *)
Definition fetch_fails (w : World) (target : value) : Prop :=
  match target with
  | VStr u =>
      match net w (log w) u with
      | Failed _ => True
      | Answer r => (400 <= status_code r < 600)%Z
      end
  | _ => True
  end.

(** The request a scraper sends for [target], if it sends one. *)
Definition request_events (target : value) : list event :=
  match target with
  | VStr u => [HttpGet u ProfileScraper.user_agent]
  | _ => []
  end.

(** The requests and pauses of a history, console output left out. *)
Definition pacing (l : list event) : list event :=
  filter (fun e => match e with
                   | Print _ => false
                   | _ => true
                   end) l.

(** Two worlds that differ at most in their history. *)
Definition same_but_log (w w' : World) : Prop :=
  files w' = files w /\ net w' = net w /\ clock w' = clock w /\
  refuses w' = refuses w.

(** [data] with the entry of [source], if [source] is configured. *)
Definition record_with (ps : dict value) (source : string) (entry : dict value)
           (data : dict (dict value)) : dict (dict value) :=
  if dict_in source ps then dict_set data source entry else data.

(** One step of [collect_data] for a networked source configured in [ps]:
    [call] is made in world [w] for the configured target and returns
    [entry], then the run pauses and is in [w']; a source that is not
    configured leaves the world as it is. *)
Definition visit (ps : dict value) (source : string)
           (call : value -> M (dict value))
           (w : World) (entry : dict value) (w' : World) : Prop :=
  match dict_get ps source with
  | Some target =>
      exists w1, call target w = (Ok entry, w1) /\ w' = emit (Sleep 2) w1
  | None => w' = w
  end.



(** The events a networked source adds to the history, console output left
    out: its request, then the pause. *)
Definition visit_events (ps : dict value) (source : string) : list event :=
  match dict_get ps source with
  | Some target => (request_events target ++ [Sleep 2])%list
  | None => []
  end.

(** The sources in the order [collect_data] visits them. *)
Definition source_order : list string := ["researchgate"; "google_scholar"; "linkedin"].

(** What the LinkedIn scraper returns. *)
Definition linkedin_profile : dict value :=
  [("current_position", VStr ""); ("education", VStr ""); ("experience", VList [])].

(** The two networked scrapers as [collect_data] calls them. *)
Definition researchgate_call_of (target : value) : M (dict value) :=
  ResearchGateProfile.get_profile_data (ResearchGateProfile.__init__ target).

Definition google_scholar_call_of (target : value) : M (dict value) :=
  GoogleScholarProfile.get_profile_data (GoogleScholarProfile.__init__ target).


(** [data[source][field]], if both keys are there. *)
Definition field (data : dict (dict value)) (source name : string) : option value :=
  match dict_get data source with
  | Some profile => dict_get profile name
  | None => None
  end.

(** The LinkedIn scraper called once for each target of a list. *)
Fixpoint linkedin_calls (targets : list value) : M (list (dict value)) :=
  match targets with
  | [] => ret []
  | target :: rest =>
      profile <- LinkedInProfile.get_profile_data (LinkedInProfile.__init__ target) ;;
      profiles <- linkedin_calls rest ;;
      ret (profile :: profiles)
  end.

(** ** Worlds and configurations for the examples *)

Definition fixed_clock (_ : list event) : datetime := Datetime 2024 5 17 8 30 0 0.

(** A network on which every request fails. *)
Definition offline (_ : list event) (_ : string) : http_result :=
  Failed (Exn RequestException "Connection refused").

(** A network that answers every request with the page [body]. *)
Definition serving (body : string) (_ : list event) (target : string) : http_result :=
  Answer (Response 200 "OK" target body).

(** A file system that accepts every write. *)
Definition accepting (_ : string) : option exn := None.

Definition offline_world : World := mkWorld [] [] offline fixed_clock accepting.

Definition world_serving (body : string) : World :=
  mkWorld [] [] (serving body) fixed_clock accepting.

Definition default_profiles : dict value :=
  [("researchgate", VStr "https://www.researchgate.net/profile/Yu-Hao-Tseng");
   ("linkedin", VStr "https://www.linkedin.com/in/yu-hao-tseng-70316221b/");
   ("google_scholar", VStr "https://scholar.google.com/citations?user=_zozF1AAAAAJ")].

(** The updater [__init__] builds from the default configuration. *)
Definition default_updater : DashboardUpdater.t :=
  DashboardUpdater.New DashboardUpdater.default_config (VStr "README.md").

(** A text within one line. *)
Definition no_newline (s : string) : bool :=
  Text.all (fun c => negb (Ascii.eqb c Text.newline)) s.

(** A page on which no pattern of the extractors matches. *)
Definition blank_page : string := "<html><body>Profile</body></html>".

(** A Google Scholar page with the name block and three statistics cells. *)
Definition scholar_cell (n : string) : string :=
  "<td class=" ++ quot ++ "gsc_rsb_std" ++ quot ++ ">" ++ n ++ "</td>".

Definition scholar_page : string :=
  "<div id=" ++ quot ++ "gsc_prf_in" ++ quot ++ ">A. Researcher</div><table><tr>"
  ++ scholar_cell "120" ++ scholar_cell "15" ++ scholar_cell "6"
  ++ "</tr></table>".

(** An updater whose configuration names Google Scholar only. *)
Definition scholar_only_updater : DashboardUpdater.t :=
  DashboardUpdater.New
    (VDict [("profiles", VDict [("google_scholar", VStr "https://scholar.example/u")])])
    (VStr "README.md").

(** A world whose configuration file is not YAML: a flow sequence is opened
    and never closed. *)
Definition malformed_config : string := "profiles: [researchgate".

Definition world_with_malformed_config : World :=
  mkWorld [("dashboard_config.yaml", malformed_config)] [] offline fixed_clock
          accepting.

(** The three profile addresses of the default configuration. *)
Definition default_urls : list string :=
  ["https://www.researchgate.net/profile/Yu-Hao-Tseng";
   "https://www.linkedin.com/in/yu-hao-tseng-70316221b/";
   "https://scholar.google.com/citations?user=_zozF1AAAAAJ"].

(* ================================================================== *)
(** * Vocabulary of the further properties *)

(** ** Scraper calls *)

(** The entry the ResearchGate scraper builds from the values of its
    extractors. *)
Definition researchgate_entry (name institution : string)
           (publications citations h_index : Z) : dict value :=
  [("name", VStr name); ("institution", VStr institution);
   ("publications", VInt publications); ("citations", VInt citations);
   ("research_interests", VList []); ("h_index", VInt h_index)].

(** The entry the Google Scholar scraper builds from the values of its
    extractors. *)
Definition google_scholar_entry (name : string) (citations h_index i10_index : Z)
  : dict value :=
  [("name", VStr name); ("citations", VInt citations); ("h_index", VInt h_index);
   ("i10_index", VInt i10_index); ("publications", VList [])].

(** [entry] holds what each ResearchGate extractor returns for [html]. *)
Definition researchgate_page_entry (html : string) (entry : dict value) : Prop :=
  exists name institution publications citations h_index,
    ResearchGateProfile._extract_name html = Ok name /\
    ResearchGateProfile._extract_institution html = Ok institution /\
    ResearchGateProfile._extract_publications html = Ok publications /\
    ResearchGateProfile._extract_citations html = Ok citations /\
    ResearchGateProfile._extract_h_index html = Ok h_index /\
    entry = researchgate_entry name institution publications citations h_index.

(** [entry] holds what each Google Scholar extractor returns for [html]. *)
Definition google_scholar_page_entry (html : string) (entry : dict value) : Prop :=
  exists name citations h_index i10_index,
    GoogleScholarProfile._extract_name html = Ok name /\
    GoogleScholarProfile._extract_citations html = Ok citations /\
    GoogleScholarProfile._extract_h_index html = Ok h_index /\
    GoogleScholarProfile._extract_i10_index html = Ok i10_index /\
    entry = google_scholar_entry name citations h_index i10_index.

(** What the scraper labelled [label] prints when its request fails. *)
Definition error_report (label : string) (e : event) : Prop :=
  exists msg, e = Print ("Error scraping " ++ label ++ ": " ++ msg).

(** One call of a networked scraper for [target] in world [w].  The call
    returns.  When the request fails, the entry is empty and the history
    gains the request, if one was sent, and one error report.  When it
    succeeds, the entry holds the values extracted from the page answered,
    and the history gains the request and nothing else.  An empty entry
    tells a failed request. *)
Definition call_outcome (label : string)
           (page_entry : string -> dict value -> Prop)
           (call : value -> M (dict value)) (target : value) (w : World) : Prop :=
  exists entry w',
    call target w = (Ok entry, w') /\
    (fetch_fails w target ->
     entry = [] /\
     exists e, error_report label e /\
               log w' = (log w ++ request_events target ++ [e])%list) /\
    (~ fetch_fails w target ->
     exists u r,
       target = VStr u /\ net w (log w) u = Answer r /\
       page_entry (text r) entry /\
       log w' = (log w ++ [HttpGet u ProfileScraper.user_agent])%list) /\
    (entry = [] -> fetch_fails w target).

(** The events of one scraper call: its request, then the error report if
    the request failed. *)
Definition call_trace (label : string) (target : value) (w w' : World) : Prop :=
  exists reports,
    log w' = (log w ++ request_events target ++ reports)%list /\
    (reports = [] \/ exists e, reports = [e] /\ error_report label e).

(** The events of one step of [collect_data]: those of the call, then the
    pause; nothing for a source that is not configured. *)
Definition visit_trace (ps : dict value) (source label : string) (w w' : World) : Prop :=
  exists evs,
    log w' = (log w ++ evs)%list /\
    pacing evs = visit_events ps source /\
    forall line, In (Print line) evs -> error_report label (Print line).

(** The events [collect_data] adds for the profiles [ps]: the requests and
    pauses of ResearchGate, then of Google Scholar, with no console output
    but the error reports of the two scrapers. *)
Definition collect_trace (ps : dict value) (evs : list event) : Prop :=
  pacing evs = (visit_events ps "researchgate" ++ visit_events ps "google_scholar")%list /\
  forall line, In (Print line) evs ->
               error_report "ResearchGate" (Print line) \/
               error_report "Google Scholar" (Print line).

(** ** The run *)

Definition config_path : string := "dashboard_config.yaml".

Definition starting_line : string := "Starting dashboard update...".

(** The console line [update_readme] prints at time [dt]. *)
Definition updated_line (dt : datetime) : string :=
  "README.md updated successfully at " ++ datetime_str dt.

Definition completed_line : string := "Dashboard update completed!".

(** ** Collected metrics *)

(** The four metric lines of the document: label, source and field. *)
Definition metric_lines : list (string * string * string) :=
  [("- **Publications**: ", "researchgate", "publications");
   ("- **Citations**: ", "google_scholar", "citations");
   ("- **H-index**: ", "google_scholar", "h_index");
   ("- **i10-index**: ", "google_scholar", "i10_index")].

(** An entry as the ResearchGate scraper leaves it: empty, or with its
    counts, none of them negative. *)
Definition researchgate_shape (e : dict value) : Prop :=
  e = [] \/
  exists name institution publications citations h_index,
    e = researchgate_entry name institution publications citations h_index /\
    (0 <= publications)%Z /\ (0 <= citations)%Z /\ (0 <= h_index)%Z.

(** An entry as the Google Scholar scraper leaves it. *)
Definition google_scholar_shape (e : dict value) : Prop :=
  e = [] \/
  exists name citations h_index i10_index,
    e = google_scholar_entry name citations h_index i10_index /\
    (0 <= citations)%Z /\ (0 <= h_index)%Z /\ (0 <= i10_index)%Z.

(** A metric of the combined record: absent, or an integer that is not
    negative. *)
Definition count_or_absent (v : option value) : Prop :=
  v = None \/ exists n, (0 <= n)%Z /\ v = Some (VInt n).

(** ** Extracted texts and counts *)

(** [s.lower()] over ASCII. *)
Fixpoint lowercase (s : string) : string :=
  match s with
  | EmptyString => ""
  | String c s' => String (Text.lower c) (lowercase s')
  end.

(** A match object with its texts in lower case. *)
Definition lower_match (m : Re.match_obj) : Re.match_obj :=
  Re.Match (lowercase (Re.group0 m)) (option_map lowercase (Re.group1 m)).

(** Every group of [r] is [([^x]+)]. *)
Fixpoint groups_exclude (x : ascii) (r : Re.regex) : bool :=
  match r with
  | Re.Group (Re.Plus (Re.Not y)) => Ascii.eqb y x
  | Re.Group _ => false
  | Re.Seq r1 r2 => groups_exclude x r1 && groups_exclude x r2
  | _ => true
  end.

(** Every match of [r] goes through a group, and every group is
    [([^x]+)]. *)
Definition excluding_group_only (x : ascii) (r : Re.regex) : bool :=
  groups_exclude x r && Re.sets_group r.

(** The character [x] does not occur in [s]. *)
Definition free_of (x : ascii) (s : string) : bool :=
  Text.all (fun c => negb (Ascii.eqb c x)) s.

(** A text as the text extractors return it: stripping it again changes
    nothing, and it has no character that opens a tag. *)
Definition clean_text (s : string) : Prop :=
  Text.strip s = s /\ Text.in_text "<" s = false.

















(** ** Texts and the h-index in words of the page *)












(** ** Worlds and configurations for the further examples *)

(** An updater whose configuration has no [profiles] key. *)
Definition updater_without_profiles : DashboardUpdater.t :=
  DashboardUpdater.New (VDict [("readme_path", VStr "README.md")]) (VStr "README.md").

(** A file system without the directory [docs]: a file cannot be created
    in it. *)
Definition no_docs_directory (path : string) : option exn :=
  if prefix "docs/" path
  then Some (Exn FileNotFoundError
                 ("[Errno 2] No such file or directory: " ++ Py.repr_str path))
  else None.

Definition world_without_docs : World :=
  mkWorld [] [] offline fixed_clock no_docs_directory.

(** An updater that writes its document into [docs]. *)
Definition docs_updater : DashboardUpdater.t :=
  DashboardUpdater.New DashboardUpdater.default_config (VStr "docs/README.md").

(** A world whose configuration file is empty. *)
Definition world_with_empty_config : World :=
  mkWorld [(config_path, "")] [] offline fixed_clock accepting.



(* ================================================================== *)
(** * The model on concrete inputs *)

Unset Implicit Arguments.

Example strip_example : Text.strip "  Yu-Hao Tseng  " = "Yu-Hao Tseng".
Proof. reflexivity. Qed.

Example int_examples :
  Text.parse_int "120" = Some 120%Z /\
  Text.parse_int " 007 " = Some 7%Z /\
  Text.parse_int "1_000" = Some 1000%Z /\
  Text.parse_int "-5" = Some (-5)%Z /\
  Text.parse_int "" = None /\
  Text.parse_int "12a" = None.
Proof. repeat split. Qed.

Example str_examples :
  Py.str (VInt 120) = "120" /\ Py.str (VInt 0) = "0" /\ Py.str (VStr "N/A") = "N/A" /\
  Py.str (VList []) = "[]" /\ Py.str VNone = "None" /\
  Py.str (VList [VStr "a"; VInt 1]) = "['a', 1]".
Proof. repeat split. Qed.

Example compile_publications :
  Re.compile ResearchGateProfile.publications_pattern
  = Some (Re.seq [Re.Group (Re.Plus Re.Digit); Re.Star Re.Space;
                  Re.One (Re.Lit "P"); Re.One (Re.Lit "u"); Re.One (Re.Lit "b");
                  Re.One (Re.Lit "l"); Re.One (Re.Lit "i"); Re.One (Re.Lit "c");
                  Re.One (Re.Lit "a"); Re.One (Re.Lit "t"); Re.One (Re.Lit "i");
                  Re.One (Re.Lit "o"); Re.One (Re.Lit "n"); Re.Opt (Re.Lit "s")]).
Proof. reflexivity. Qed.

Example compile_h_index :
  Re.compile ResearchGateProfile.h_index_pattern
  = Some (Re.seq [Re.One (Re.Lit "h"); Re.One (Re.Lit "-"); Re.One (Re.Lit "i");
                  Re.One (Re.Lit "n"); Re.One (Re.Lit "d"); Re.One (Re.Lit "e");
                  Re.One (Re.Lit "x"); Re.Star (Re.Not ">"); Re.One (Re.Lit ">");
                  Re.Group (Re.Plus Re.Digit)]).
Proof. reflexivity. Qed.

Example compile_refuses :
  Re.compile "a|b" = None /\ Re.compile "(a)*" = None /\ Re.compile "a*?" = None /\
  Re.compile "\w+" = None /\ Re.compile "[a-z]" = None /\ Re.compile "^a$" = None.
Proof. repeat split. Qed.

Example search_examples :
  Re.search ResearchGateProfile.name_pattern "<h1 class=x> Yu-Hao Tseng </h1>" Re.NOFLAG
  = Ok (Some (Re.Match "<h1 class=x> Yu-Hao Tseng </h1>" (Some " Yu-Hao Tseng "))) /\
  Re.search ResearchGateProfile.publications_pattern "7 items, 12  PUBLICATIONS" Re.IGNORECASE
  = Ok (Some (Re.Match "12  PUBLICATIONS" (Some "12"))) /\
  Re.search ResearchGateProfile.publications_pattern "7 items, 12  PUBLICATIONS" Re.NOFLAG
  = Ok None /\
  Re.search ResearchGateProfile.h_index_pattern "h-index</span><b>7</b>" Re.IGNORECASE
  = Ok None /\
  Re.findall GoogleScholarProfile.cell_pattern scholar_page = Ok ["120"; "15"; "6"].
Proof. repeat split; vm_compute; reflexivity. Qed.

Example researchgate_page_example :
  fst (ResearchGateProfile.get_profile_data
         (ResearchGateProfile.__init__ (VStr "https://rg.example/p"))
         (world_serving
            "<h1> Yu-Hao Tseng </h1><a class=institution>NTOU</a> 12 Publications, 340 citations, h-index: <b>7</b>"))
  = Ok [("name", VStr "Yu-Hao Tseng"); ("institution", VStr "NTOU");
        ("publications", VInt 12); ("citations", VInt 340);
        ("research_interests", VList []); ("h_index", VInt 7)].
Proof. vm_compute. reflexivity. Qed.

Example scholar_page_example :
  fst (DashboardUpdater.collect_data scholar_only_updater (world_serving scholar_page))
  = Ok [("google_scholar",
         [("name", VStr "A. Researcher"); ("citations", VInt 120);
          ("h_index", VInt 15); ("i10_index", VInt 6); ("publications", VList [])])].
Proof. vm_compute. reflexivity. Qed.

Example dump_default_config :
  BlockYaml.dump DashboardUpdater.default_config =
"profiles:
  google_scholar: https://scholar.google.com/citations?user=_zozF1AAAAAJ
  linkedin: https://www.linkedin.com/in/yu-hao-tseng-70316221b/
  researchgate: https://www.researchgate.net/profile/Yu-Hao-Tseng
readme_path: README.md
sections:
  about: true
  citations: true
  education: true
  experience: true
  publications: true
  research_interests: true
update_frequency: daily
".
Proof. vm_compute. reflexivity. Qed.

Example load_examples :
  BlockYaml.load "readme_path: OUT.md" = Ok (VDict [("readme_path", VStr "OUT.md")]) /\
  BlockYaml.load "" = Ok VNone /\
  exn_cls (match BlockYaml.load malformed_config with
           | Raise e => e
           | Ok _ => Exn KeyError ""
           end) = YAMLError.
Proof. repeat split. Qed.

(** A first run without a configuration file and without network: the
    configuration file is created, both requests are made and fail, and the
    README shows N/A four times. *)
Example offline_first_run :
  let w := snd (DashboardUpdater.main offline_world) in
  fst (DashboardUpdater.main offline_world) = Ok tt /\
  dict_keys (files w) = ["dashboard_config.yaml"; "README.md"] /\
  log w =
  [Print "Starting dashboard update...";
   HttpGet "https://www.researchgate.net/profile/Yu-Hao-Tseng" ProfileScraper.user_agent;
   Print "Error scraping ResearchGate: Connection refused";
   Sleep 2;
   HttpGet "https://scholar.google.com/citations?user=_zozF1AAAAAJ"
           ProfileScraper.user_agent;
   Print "Error scraping Google Scholar: Connection refused";
   Sleep 2;
   Print "README.md updated successfully at 2024-05-17 08:30:00";
   Print "Dashboard update completed!"] /\
  (forall doc, dict_get (files w) "README.md" = Some doc ->
               Text.has_line doc "- **Publications**: N/A" = true /\
               Text.has_line doc "- **Citations**: N/A" = true /\
               Text.has_line doc "- **H-index**: N/A" = true /\
               Text.has_line doc "- **i10-index**: N/A" = true /\
               Text.has_line doc "*Last updated: 2024-05-17 08:30:00*" = true).
Proof.
  cbv zeta. split; [vm_compute; reflexivity|].
  split; [vm_compute; reflexivity|].
  split; [vm_compute; reflexivity|].
  intros doc H. vm_compute in H. injection H as <-.
  repeat split; vm_compute; reflexivity.
Qed.

(* ================================================================== *)
(** * Properties of the text functions *)

Lemma append_nil_r (s : string) : s ++ "" = s.
Proof. induction s; simpl; congruence. Qed.

Lemma append_assoc (a b c : string) : (a ++ b) ++ c = a ++ (b ++ c).
Proof. induction a; simpl; congruence. Qed.

Lemma all_append (p : ascii -> bool) (a b : string) :
  Text.all p (a ++ b) = Text.all p a && Text.all p b.
Proof.
  induction a as [|c a IH]; simpl; [reflexivity|].
  rewrite IH. apply andb_assoc.
Qed.

Lemma rev_onto_append (s acc : string) :
  Text.rev_onto s acc = Text.rev s ++ acc.
Proof.
  unfold Text.rev. revert acc.
  induction s as [|c s IH]; intro acc; simpl; [reflexivity|].
  rewrite IH, (IH (String c "")), append_assoc. reflexivity.
Qed.

Lemma rev_append (a b : string) : Text.rev (a ++ b) = Text.rev b ++ Text.rev a.
Proof.
  induction a as [|c a IH]; simpl.
  - now rewrite append_nil_r.
  - unfold Text.rev in *. simpl.
    rewrite (rev_onto_append (a ++ b)), (rev_onto_append a).
    unfold Text.rev. rewrite IH, append_assoc. reflexivity.
Qed.

Lemma rev_involutive (s : string) : Text.rev (Text.rev s) = s.
Proof.
  induction s as [|c s IH]; [reflexivity|].
  unfold Text.rev at 2. simpl. rewrite rev_onto_append, rev_append, IH.
  reflexivity.
Qed.

Lemma all_rev (p : ascii -> bool) (s : string) : Text.all p (Text.rev s) = Text.all p s.
Proof.
  induction s as [|c s IH]; [reflexivity|].
  unfold Text.rev. simpl. rewrite rev_onto_append, all_append, IH. simpl.
  rewrite andb_true_r. apply andb_comm.
Qed.

Lemma digit_not_space (c : ascii) : Text.is_digit c = true -> Text.is_space c = false.
Proof.
  unfold Text.is_digit, Text.is_space, Text.between. intro H.
  apply andb_true_iff in H. destruct H as [H1 H2].
  apply N.leb_le in H1. apply N.leb_le in H2.
  apply orb_false_iff. split; apply andb_false_iff; right; apply N.leb_gt; lia.
Qed.

Lemma lstrip_digits (s : string) : Text.all Text.is_digit s = true -> Text.lstrip s = s.
Proof.
  destruct s as [|c s]; simpl; [reflexivity|]. intro H.
  apply andb_true_iff in H. destruct H as [H _].
  now rewrite (digit_not_space _ H).
Qed.

(** [strip] leaves a string of digits as it is. *)
Lemma strip_digits (s : string) : Text.all Text.is_digit s = true -> Text.strip s = s.
Proof.
  intro H. unfold Text.strip, Text.rstrip.
  rewrite (lstrip_digits _ H), lstrip_digits, rev_involutive; [reflexivity|].
  now rewrite all_rev.
Qed.

Lemma int_body_digits (s : string) :
  Text.all Text.is_digit s = true ->
  forall acc seen, s <> "" \/ seen = true ->
  Text.int_body s acc seen = Some (Text.decimal_from acc s).
Proof.
  induction s as [|c s IH]; simpl; intros H acc seen Hne.
  - destruct Hne as [Hne | ->]; [congruence | reflexivity].
  - apply andb_true_iff in H. destruct H as [Hc Hs].
    rewrite Hc. apply IH; auto.
Qed.

(** [int] of a non-empty string of digits is the number it denotes. *)
Lemma parse_int_digits (s : string) :
  Text.all Text.is_digit s = true -> s <> "" ->
  Text.parse_int s = Some (Text.decimal_value s).
Proof.
  intros H Hne. unfold Text.parse_int. rewrite (strip_digits _ H).
  destruct s as [|c s]; [congruence|].
  assert (Hc : Text.is_digit c = true) by (simpl in H; now apply andb_true_iff in H).
  assert (Hb : Text.int_body (String c s) 0 false = Some (Text.decimal_value (String c s)))
    by (apply int_body_digits; auto; left; congruence).
  destruct (Ascii.eqb c "-") eqn:E1.
  { apply Ascii.eqb_eq in E1. subst c. discriminate Hc. }
  destruct (Ascii.eqb c "+") eqn:E2.
  { apply Ascii.eqb_eq in E2. subst c. discriminate Hc. }
  rewrite <- Hb.
  destruct c as [[] [] [] [] [] [] [] []]; try reflexivity; discriminate.
Qed.

Lemma int_of_digits (s : string) :
  Text.all Text.is_digit s = true -> s <> "" ->
  int_of (Some s) = Ok (Text.decimal_value s).
Proof.
  intros H Hne. unfold int_of. now rewrite parse_int_digits.
Qed.

Lemma lines_not_nil (s : string) : Text.lines s <> [].
Proof.
  destruct s as [|c s]; simpl; [discriminate|].
  destruct (Ascii.eqb c Text.newline); [discriminate|].
  destruct (Text.lines s); discriminate.
Qed.

(** [(pre + '\n' + rest).split('\n')] is [pre.split('\n') + rest.split('\n')]. *)
Lemma lines_app_newline (pre rest : string) :
  Text.lines (pre ++ String Text.newline rest)
  = (Text.lines pre ++ Text.lines rest)%list.
Proof.
  induction pre as [|c pre IH]; simpl.
  - reflexivity.
  - destruct (Ascii.eqb c Text.newline); [now rewrite IH|].
    rewrite IH. pose proof (lines_not_nil pre) as Hne.
    destruct (Text.lines pre); [congruence | reflexivity].
Qed.

Lemma lines_no_newline (l : string) : no_newline l = true -> Text.lines l = [l].
Proof.
  unfold no_newline. induction l as [|c l IH]; simpl; [reflexivity|].
  intro H. apply andb_true_iff in H. destruct H as [Hc Hl].
  apply negb_true_iff in Hc. rewrite Hc, (IH Hl). reflexivity.
Qed.

Lemma mem_app (x : string) (a b : list string) :
  Text.mem x (a ++ b)%list = Text.mem x a || Text.mem x b.
Proof.
  induction a as [|y a IH]; simpl; [reflexivity|].
  now rewrite IH, orb_assoc.
Qed.

Lemma has_line_app_newline (pre rest l : string) :
  Text.has_line (pre ++ String Text.newline rest) l
  = Text.has_line pre l || Text.has_line rest l.
Proof. unfold Text.has_line. now rewrite lines_app_newline, mem_app. Qed.

Lemma has_line_self (l : string) : no_newline l = true -> Text.has_line l l = true.
Proof.
  intro H. unfold Text.has_line. rewrite (lines_no_newline _ H). simpl.
  now rewrite String.eqb_refl.
Qed.

Lemma no_newline_append (a b : string) :
  no_newline (a ++ b) = no_newline a && no_newline b.
Proof. apply all_append. Qed.

Lemma uint_no_newline (d : Decimal.uint) :
  no_newline (NilEmpty.string_of_uint d) = true.
Proof. induction d; simpl; auto. Qed.

(** The decimal text of an integer is within one line. *)
Lemma of_Z_no_newline (z : Z) : no_newline (Text.of_Z z) = true.
Proof.
  unfold Text.of_Z, NilZero.string_of_int, NilZero.string_of_uint.
  destruct (Z.to_int z) as [d | d]; destruct d; simpl;
    try reflexivity; apply uint_no_newline.
Qed.

(* ================================================================== *)
(** * Dictionaries *)

Section DictFacts.
Variable V : Type.

Lemma dict_get_set_same (d : dict V) (k : string) (v : V) :
  dict_get (dict_set d k v) k = Some v.
Proof.
  induction d as [|[k' v'] d IH]; simpl.
  - now rewrite String.eqb_refl.
  - destruct (String.eqb k' k) eqn:E; simpl; rewrite E; auto.
Qed.

Lemma dict_get_set_other (d : dict V) (k k' : string) (v : V) :
  k <> k' -> dict_get (dict_set d k v) k' = dict_get d k'.
Proof.
  intro Hne. induction d as [|[k0 v0] d IH]; simpl.
  - destruct (String.eqb_spec k k'); [contradiction | reflexivity].
  - destruct (String.eqb_spec k0 k); simpl.
    + subst k0. destruct (String.eqb_spec k k'); [contradiction | reflexivity].
    + destruct (String.eqb_spec k0 k'); [reflexivity | exact IH].
Qed.


End DictFacts.

(* ================================================================== *)
(** * The matcher against the definition of a match *)

Section MatcherFacts.
Import Re.
Variable R : Type.

Lemma star_sound (p : ascii -> bool) (s : string) :
  forall (k : string -> string -> option R) x,
    star p s k = Some x ->
    exists cs rest, Text.all p cs = true /\ s = cs ++ rest /\ k cs rest = Some x.
Proof.
  induction s as [|c s IH]; simpl; intros k x H.
  - exists "", "". auto.
  - destruct (p c) eqn:Hp.
    + destruct (star p s (fun cs rest => k (String c cs) rest)) as [r|] eqn:E.
      * injection H as ->.
        destruct (IH _ _ E) as (cs & rest & Hall & -> & Hk).
        exists (String c cs), rest. simpl. rewrite Hp. auto.
      * exists "", (String c s). auto.
    + exists "", (String c s). auto.
Qed.

Lemma star_complete (p : ascii -> bool) (s : string) :
  forall (k : string -> string -> option R),
    star p s k = None ->
    forall cs rest, Text.all p cs = true -> s = cs ++ rest -> k cs rest = None.
Proof.
  induction s as [|c s IH]; simpl; intros k H cs rest Hall Hs.
  - destruct cs; [|discriminate]. simpl in Hs. now subst rest.
  - destruct cs as [|c' cs].
    + simpl in Hs. subst rest.
      destruct (p c); [|assumption].
      destruct (star p s _); [discriminate | assumption].
    + simpl in Hs. injection Hs as <- ->.
      simpl in Hall. apply andb_true_iff in Hall. destruct Hall as [Hc Hall].
      rewrite Hc in H.
      destruct (star p (cs ++ rest) (fun cs0 rest0 => k (String c cs0) rest0)) eqn:E;
        [discriminate|].
      exact (IH _ E cs rest Hall eq_refl).
Qed.

(** Whatever [run] finds is a match. *)
Lemma run_sound (ic : bool) (r : regex) :
  forall s g (k : string -> string -> option string -> option R) x,
    run ic r s g k = Some x ->
    exists cs rest g',
      Matches ic r cs g g' /\ s = cs ++ rest /\ k cs rest g' = Some x.
Proof.
  induction r as [|a|a|a|a|r IH|r1 IH1 r2 IH2]; simpl; intros s g k x H.
  - exists "", s, g. split; [constructor | auto].
  - destruct s as [|c s]; [discriminate|].
    destruct (cls_match ic a c) eqn:Hc; [|discriminate].
    exists (String c ""), s, g. split; [now constructor | auto].
  - apply star_sound in H. destruct H as (cs & rest & Hall & -> & Hk).
    exists cs, rest, g. split; [now constructor | auto].
  - destruct s as [|c s]; [discriminate|].
    destruct (cls_match ic a c) eqn:Hc; [|discriminate].
    apply star_sound in H. destruct H as (cs & rest & Hall & -> & Hk).
    exists (String c cs), rest, g. split; [now constructor | auto].
  - destruct s as [|c s].
    + exists "", "", g. split; [constructor | auto].
    + destruct (cls_match ic a c) eqn:Hc.
      * destruct (k (String c "") s g) eqn:E.
        -- injection H as ->.
           exists (String c ""), s, g. split; [now constructor | auto].
        -- exists "", (String c s), g. split; [constructor | auto].
      * exists "", (String c s), g. split; [constructor | auto].
  - apply IH in H. destruct H as (cs & rest & g' & Hm & -> & Hk).
    exists cs, rest, (Some cs). split; [econstructor; eassumption | auto].
  - apply IH1 in H. destruct H as (c1 & s1 & g1 & Hm1 & -> & H).
    apply IH2 in H. destruct H as (c2 & s2 & g2 & Hm2 & -> & Hk).
    exists (c1 ++ c2), s2, g2.
    split; [econstructor; eassumption|]. split; [|assumption].
    now rewrite append_assoc.
Qed.

(** When [run] finds nothing, no match satisfies the continuation. *)
Lemma run_complete (ic : bool) (r : regex) :
  forall s g (k : string -> string -> option string -> option R),
    run ic r s g k = None ->
    forall cs rest g', Matches ic r cs g g' -> s = cs ++ rest -> k cs rest g' = None.
Proof.
  induction r as [|a|a|a|a|r IH|r1 IH1 r2 IH2]; simpl;
    intros s g k H cs rest g' Hm Hs; inversion Hm; subst; simpl in *;
    repeat match goal with
           | Hc : cls_match _ _ _ = true |- _ => rewrite Hc in *; clear Hc
           end.
  - assumption.
  - assumption.
  - eapply star_complete in H; eauto.
  - eapply star_complete in H; eauto.
  - destruct rest as [|c rest]; [assumption|].
    destruct (cls_match ic a c); [|assumption].
    destruct (k (String c "") rest g'); [discriminate | assumption].
  - destruct (k (String c "") rest g'); [discriminate|reflexivity].
  - match goal with
    | Hr : Matches _ r _ _ _ |- _ => exact (IH _ _ _ H _ _ _ Hr eq_refl)
    end.
  - rewrite append_assoc in H.
    match goal with
    | Ha : Matches _ r1 _ _ _, Hb : Matches _ r2 _ _ _ |- _ =>
        pose proof (IH1 _ _ _ H _ _ _ Ha eq_refl) as H'; simpl in H';
        exact (IH2 _ _ _ H' _ _ _ Hb eq_refl)
    end.
Qed.

End MatcherFacts.

Section SearchFacts.
Import Re.

Lemma match_here_sound ic r s m :
  match_here ic r s = Some m ->
  exists rest, s = group0 m ++ rest /\ Matches ic r (group0 m) None (group1 m).
Proof.
  unfold match_here. intro H. apply run_sound in H.
  destruct H as (cs & rest & g' & Hm & -> & Hk). injection Hk as <-.
  exists rest. auto.
Qed.

Lemma match_here_none ic r s :
  match_here ic r s = None ->
  forall cs rest g, s = cs ++ rest -> ~ Matches ic r cs None g.
Proof.
  unfold match_here. intros H cs rest g Hs Hm.
  pose proof (run_complete _ _ _ _ _ _ H _ _ _ Hm Hs). discriminate.
Qed.

(** A successful [search_in] returns a match of the pattern inside the text. *)
Lemma search_sound ic r s m :
  search_in ic r s = Some m ->
  exists pre rest, s = pre ++ group0 m ++ rest /\
                   Matches ic r (group0 m) None (group1 m).
Proof.
  induction s as [|c s IH]; simpl.
  - destruct (match_here ic r "") eqn:E; [|discriminate].
    intro H. injection H as ->. apply match_here_sound in E.
    destruct E as (rest & E & Hm). exists "", rest. auto.
  - destruct (match_here ic r (String c s)) eqn:E.
    + intro H. injection H as ->. apply match_here_sound in E.
      destruct E as (rest & E & Hm). exists "", rest. auto.
    + intro H. destruct (IH H) as (pre & rest & -> & Hm).
      exists (String c pre), rest. auto.
Qed.


(** [search_in] fails only when the pattern matches nowhere in the text. *)
Lemma search_none ic r s : search_in ic r s = None -> ~ occurs_in ic r s.
Proof.
  induction s as [|c s IH]; simpl.
  - destruct (match_here ic r "") eqn:E; [discriminate|]. intros _.
    intros (pre & cs & rest & g & Hs & Hm).
    destruct pre; [|discriminate]. simpl in Hs.
    exact (match_here_none _ _ _ E _ _ _ Hs Hm).
  - destruct (match_here ic r (String c s)) eqn:E; [discriminate|]. intro H.
    intros (pre & cs & rest & g & Hs & Hm).
    destruct pre as [|c' pre].
    + simpl in Hs. exact (match_here_none _ _ _ E _ _ _ Hs Hm).
    + simpl in Hs. injection Hs as <- Hs.
      apply (IH H). exists pre, cs, rest, g. auto.
Qed.

Lemma search_some_occurs ic r s m : search_in ic r s = Some m -> occurs_in ic r s.
Proof.
  intro H. destruct (search_sound _ _ _ _ H) as (pre & rest & Hs & Hm).
  exists pre, (group0 m), rest, (group1 m). auto.
Qed.


(** Every item of the scan is a match of the pattern. *)
Lemma scan_sound ic r s :
  forall skip m, In m (scan ic r s skip) ->
                 Matches ic r (group0 m) None (group1 m).
Proof.
  induction s as [|c s IH]; intros skip m; destruct skip; simpl; try tauto.
  - destruct (match_here ic r "") eqn:E; simpl; [|tauto].
    intros [<- | []]. apply match_here_sound in E. now destruct E as (_ & _ & Hm).
  - destruct (match_here ic r (String c s)) eqn:E; simpl.
    + intros [<- | H].
      * apply match_here_sound in E. now destruct E as (_ & _ & Hm).
      * eapply IH; eassumption.
    + apply IH.
  - apply IH.
Qed.

Lemma matches_digit_groups ic r cs g g' :
  Matches ic r cs g g' -> digit_groups r = true -> digits_opt g -> digits_opt g'.
Proof.
  induction 1; simpl; intros Hd Hg; try assumption.
  - destruct r; try discriminate. destruct a; try discriminate.
    inversion H; subst. simpl in *. split; [|discriminate].
    apply andb_true_iff. split; assumption.
  - apply andb_true_iff in Hd. destruct Hd. auto.
Qed.

Lemma matches_sets_group ic r cs g g' :
  Matches ic r cs g g' -> sets_group r = true \/ g <> None -> g' <> None.
Proof.
  induction 1; simpl; intros [Hd | Hg]; try discriminate; try assumption.
  - apply orb_true_iff in Hd. destruct Hd as [Hd | Hd]; auto.
  - auto.
Qed.

(** A match of a pattern whose only groups are [(\d+)] captures a non-empty
    string of digits. *)
Lemma digit_capture ic r cs g' :
  digit_groups r = true -> sets_group r = true ->
  Matches ic r cs None g' ->
  exists ds, g' = Some ds /\ Text.all Text.is_digit ds = true /\ ds <> "".
Proof.
  intros Hd Hs Hm.
  pose proof (matches_digit_groups _ _ _ _ _ Hm Hd I) as H1.
  pose proof (matches_sets_group _ _ _ _ _ Hm (or_introl Hs)) as H2.
  destruct g' as [ds|]; [|congruence]. exists ds. simpl in H1. tauto.
Qed.

End SearchFacts.

(* ================================================================== *)
(** * The field extractors *)

Section ExtractorFacts.
Import Re.

Lemma search_compiled (pattern : string) (r : regex) (s : string) (flags : bool) :
  compile pattern = Some r -> search pattern s flags = Ok (search_in flags r s).
Proof. intro H. unfold search. now rewrite H. Qed.

Lemma findall_compiled (pattern : string) (r : regex) (s : string) :
  compile pattern = Some r -> findall pattern s = Ok (findall_in NOFLAG r s).
Proof. intro H. unfold findall. now rewrite H. Qed.

Lemma occurs_compiled (pattern : string) (r : regex) (s : string) (flags : bool) :
  compile pattern = Some r -> (occurs pattern s flags <-> occurs_in flags r s).
Proof.
  intro H. unfold occurs. split.
  - intros (r' & Hr & Ho). congruence.
  - eauto.
Qed.

Lemma search_text_extraction (pattern : string) (flags : bool) f :
  compiles_to sets_group pattern = true ->
  (forall html, f html = match search pattern html flags with
                         | Raise e => Raise e
                         | Ok (Some m) => group_strip m
                         | Ok None => Ok ""
                         end) ->
  forall html, text_extraction pattern flags f html.
Proof.
  unfold compiles_to. destruct (compile pattern) as [r|] eqn:Ec; [|discriminate].
  intros Hs Hf html. unfold text_extraction.
  rewrite Hf, (search_compiled _ _ _ _ Ec), (occurs_compiled _ _ _ _ Ec).
  destruct (search_in flags r html) as [m|] eqn:E.
  - destruct (search_sound _ _ _ _ E) as (pre & rest & _ & Hm).
    pose proof (matches_sets_group _ _ _ _ _ Hm (or_introl Hs)) as Hg.
    unfold group_strip.
    destruct (group1 m) as [g|] eqn:Eg; [|congruence].
    split; [eauto|]. split.
    + intros _. exists m, g. auto.
    + intro Hn. exfalso. apply Hn. eapply search_some_occurs; eassumption.
  - split; [eauto|]. split.
    + intro Ho. exfalso. exact (search_none _ _ _ E Ho).
    + reflexivity.
Qed.


(** The captures [findall] lists for a [(\d+)] pattern are non-empty strings
    of digits. *)
Lemma findall_digits ic r s :
  digit_groups r = true -> sets_group r = true ->
  forall ds, In ds (findall_in ic r s) ->
             Text.all Text.is_digit ds = true /\ ds <> "".
Proof.
  intros Hd Hs ds Hin. unfold findall_in in Hin. apply in_map_iff in Hin.
  destruct Hin as (m & <- & Hin).
  apply scan_sound in Hin.
  destruct (digit_capture _ _ _ _ Hd Hs Hin) as (ds & -> & Hall & Hne). auto.
Qed.

Lemma nth_findall_int ic r s i :
  digit_groups r = true -> sets_group r = true ->
  (if (i <? List.length (findall_in ic r s))%nat
   then int_of (nth_error (findall_in ic r s) i) else Ok 0%Z)
  = Ok (nth_int i (findall_in ic r s)).
Proof.
  intros Hd Hs. unfold nth_int.
  destruct (i <? List.length (findall_in ic r s))%nat eqn:E.
  - apply Nat.ltb_lt in E. apply nth_error_Some in E.
    destruct (nth_error (findall_in ic r s) i) as [ds|] eqn:En; [|congruence].
    apply nth_error_In in En.
    destruct (findall_digits _ _ _ Hd Hs _ En) as [Hall Hne].
    now apply int_of_digits.
  - apply Nat.ltb_ge in E. apply nth_error_None in E. now rewrite E.
Qed.



End ExtractorFacts.




(* ================================================================== *)
(** * The scrapers *)

Lemma pacing_app (a b : list event) : pacing (a ++ b)%list = (pacing a ++ pacing b)%list.
Proof. apply filter_app. Qed.

Ltac unfold_m :=
  unfold try_except, bind, ret, raise, lift, print, sleep, any_exception in *.

(** Close one outcome of a scraper call: name the entry and the world, then
    check the frame, the requests sent and the entry of a failed request. *)
Ltac settle_call :=
  eexists _, _; split; [reflexivity|]; simpl;
  rewrite ?pacing_app, <- ?app_assoc; simpl; rewrite ?app_nil_r;
  repeat split; auto; try tauto.

(** Split on the outcome of each extractor applied to the page. *)
Ltac case_extractors :=
  repeat match goal with
         | |- context [?f (text ?r)] => destruct (f (text r)); simpl
         end.

(** Split a call of a networked scraper on the target, the answer of the
    network and the status. *)
Ltac case_request target w :=
  unfold ProfileScraper.get, ProfileScraper.raise_for_status, same_but_log,
    fetch_fails, request_events;
  unfold_m; simpl;
  destruct target as [| ? | ? | u | ? | ?]; simpl; try settle_call;
  destruct (net w (log w) u) as [e | r]; simpl; [settle_call|];
  destruct ((400 <=? status_code r)%Z && (status_code r <? 500)%Z) eqn:E4; simpl;
    [settle_call|];
  destruct ((500 <=? status_code r)%Z && (status_code r <? 600)%Z) eqn:E5; simpl;
    [settle_call|];
  assert (Hok : ~ (400 <= status_code r < 600)%Z)
    by (apply andb_false_iff in E4; apply andb_false_iff in E5;
        destruct E4 as [E4|E4], E5 as [E5|E5];
        try apply Z.leb_gt in E4; try apply Z.ltb_ge in E4;
        try apply Z.leb_gt in E5; try apply Z.ltb_ge in E5; lia).

(** One call of the ResearchGate scraper: it returns, changes nothing but
    the history, sends at most its one request, and returns the empty
    dictionary when the request fails. *)
Lemma researchgate_call (target : value) (w : World) :
  exists entry w',
    ResearchGateProfile.get_profile_data (ResearchGateProfile.__init__ target) w
    = (Ok entry, w') /\
    same_but_log w w' /\
    pacing (log w') = (pacing (log w) ++ request_events target)%list /\
    (fetch_fails w target -> entry = []).
Proof.
  unfold ResearchGateProfile.get_profile_data, ResearchGateProfile.__init__.
  case_request target w. case_extractors; settle_call.
Qed.

(** One call of the Google Scholar scraper, as for ResearchGate. *)
Lemma google_scholar_call (target : value) (w : World) :
  exists entry w',
    GoogleScholarProfile.get_profile_data (GoogleScholarProfile.__init__ target) w
    = (Ok entry, w') /\
    same_but_log w w' /\
    pacing (log w') = (pacing (log w) ++ request_events target)%list /\
    (fetch_fails w target -> entry = []).
Proof.
  unfold GoogleScholarProfile.get_profile_data, GoogleScholarProfile.__init__.
  case_request target w. case_extractors; settle_call.
Qed.

(* ================================================================== *)
(** * Collecting *)

Section CollectFacts.
Import DashboardUpdater.
Variable self : DashboardUpdater.t.
Variable ps : dict value.
Hypothesis profiles_ok : subscript (config self) "profiles" = Ok (VDict ps).

(** [collect_data] returns: it visits ResearchGate in the world it starts
    in, Google Scholar in the world that leaves, and adds the LinkedIn entry
    without touching the world. *)
Lemma collect_data_steps (w : World) :
  exists e1 w1 e2 w2,
    visit ps "researchgate" researchgate_call_of w e1 w1 /\
    visit ps "google_scholar" google_scholar_call_of w1 e2 w2 /\
    collect_data self w
    = (Ok (record_with ps "linkedin" linkedin_profile
             (record_with ps "google_scholar" e2
                (record_with ps "researchgate" e1 []))), w2).
Proof.
  unfold collect_data, researchgate_call_of, google_scholar_call_of.
  unfold_m. rewrite profiles_ok. simpl.
  unfold record_with, dict_in.
  assert (Hv : forall source call w0 e t w',
             dict_get ps source = Some t -> call t w0 = (Ok e, w') ->
             visit ps source call w0 e (emit (Sleep 2) w')).
  { intros source call w0 e t w' Hs Hc. unfold visit. rewrite Hs. eauto. }
  assert (Hn : forall source call w0 e,
             dict_get ps source = None -> visit ps source call w0 e w0).
  { intros source call w0 e Hs. unfold visit. now rewrite Hs. }
  destruct (dict_get ps "researchgate") as [t1|] eqn:E1; simpl.
  - destruct (researchgate_call t1 w) as (e1 & w1 & Hc1 & _). rewrite Hc1. simpl.
    destruct (dict_get ps "google_scholar") as [t2|] eqn:E2; simpl.
    + destruct (google_scholar_call t2 (emit (Sleep 2) w1)) as (e2 & w2 & Hc2 & _).
      rewrite Hc2. simpl.
      exists e1, (emit (Sleep 2) w1), e2, (emit (Sleep 2) w2).
      split; [eapply Hv; eauto|]. split; [eapply Hv; eauto|].
      destruct (dict_get ps "linkedin"); reflexivity.
    + exists e1, (emit (Sleep 2) w1), [], (emit (Sleep 2) w1).
      split; [eapply Hv; eauto|]. split; [eapply Hn; eauto|].
      destruct (dict_get ps "linkedin"); reflexivity.
  - destruct (dict_get ps "google_scholar") as [t2|] eqn:E2; simpl.
    + destruct (google_scholar_call t2 w) as (e2 & w2 & Hc2 & _).
      rewrite Hc2. simpl.
      exists [], w, e2, (emit (Sleep 2) w2).
      split; [eapply Hn; eauto|]. split; [eapply Hv; eauto|].
      destruct (dict_get ps "linkedin"); reflexivity.
    + exists [], w, [], w.
      split; [eapply Hn; eauto|]. split; [eapply Hn; eauto|].
      destruct (dict_get ps "linkedin"); reflexivity.
Qed.

Lemma visit_researchgate_facts (w w' : World) (e : dict value) :
  visit ps "researchgate" researchgate_call_of w e w' ->
  same_but_log w w' /\
  pacing (log w') = (pacing (log w) ++ visit_events ps "researchgate")%list /\
  (forall t, dict_get ps "researchgate" = Some t -> fetch_fails w t -> e = []).
Proof.
  unfold visit, visit_events, researchgate_call_of.
  destruct (dict_get ps "researchgate") as [t|].
  - intros (w1 & Hc & ->).
    destruct (researchgate_call t w) as (e' & w'' & Hc' & Hsame & Hp & Hf).
    rewrite Hc in Hc'. injection Hc' as <- <-.
    split; [exact Hsame|]. split.
    + simpl. rewrite pacing_app, Hp, <- app_assoc. reflexivity.
    + intros t' Ht. injection Ht as <-. exact Hf.
  - intros ->. unfold same_but_log. rewrite app_nil_r.
    repeat split; auto. discriminate.
Qed.

Lemma visit_google_scholar_facts (w w' : World) (e : dict value) :
  visit ps "google_scholar" google_scholar_call_of w e w' ->
  same_but_log w w' /\
  pacing (log w') = (pacing (log w) ++ visit_events ps "google_scholar")%list /\
  (forall t, dict_get ps "google_scholar" = Some t -> fetch_fails w t -> e = []).
Proof.
  unfold visit, visit_events, google_scholar_call_of.
  destruct (dict_get ps "google_scholar") as [t|].
  - intros (w1 & Hc & ->).
    destruct (google_scholar_call t w) as (e' & w'' & Hc' & Hsame & Hp & Hf).
    rewrite Hc in Hc'. injection Hc' as <- <-.
    split; [exact Hsame|]. split.
    + simpl. rewrite pacing_app, Hp, <- app_assoc. reflexivity.
    + intros t' Ht. injection Ht as <-. exact Hf.
  - intros ->. unfold same_but_log. rewrite app_nil_r.
    repeat split; auto. discriminate.
Qed.

End CollectFacts.

Lemma record_with_absent (ps : dict value) (k source : string)
      (e : dict value) (data : dict (dict value)) :
  dict_in k ps = false -> dict_get data k = None ->
  dict_get (record_with ps source e data) k = None.
Proof.
  intros Hk Hd. unfold record_with.
  destruct (dict_in source ps) eqn:E; [|assumption].
  rewrite dict_get_set_other; [assumption|].
  intros ->. congruence.
Qed.

Lemma record_with_present (ps : dict value) (source : string)
      (e : dict value) (data : dict (dict value)) :
  dict_in source ps = true ->
  dict_get (record_with ps source e data) source = Some e.
Proof.
  intro H. unfold record_with. rewrite H. apply dict_get_set_same.
Qed.

Lemma record_with_other (ps : dict value) (k source : string)
      (e : dict value) (data : dict (dict value)) :
  source <> k ->
  dict_get (record_with ps source e data) k = dict_get data k.
Proof.
  intro H. unfold record_with.
  destruct (dict_in source ps); [|reflexivity].
  now apply dict_get_set_other.
Qed.

(** C8.  With a [profiles] mapping in the configuration, [collect_data]
    returns; the keys of the combined record are the configured ones among
    researchgate, google_scholar, linkedin, in that order; a source that is
    not configured has no entry; and the requests and pauses of the run are
    those of ResearchGate followed by those of Google Scholar, each request
    followed by its pause. *)
Theorem collect_order_and_skips
        (self : DashboardUpdater.t) (ps : dict value) (w : World) :
  subscript (DashboardUpdater.config self) "profiles" = Ok (VDict ps) ->
  exists data w',
    DashboardUpdater.collect_data self w = (Ok data, w') /\
    dict_keys data = filter (fun k => dict_in k ps) source_order /\
    (forall k, dict_in k ps = false -> dict_get data k = None) /\
    pacing (log w')
    = (pacing (log w) ++ visit_events ps "researchgate"
         ++ visit_events ps "google_scholar")%list.
Proof.
  intro Hps.
  destruct (collect_data_steps self ps Hps w) as (e1 & w1 & e2 & w2 & Hv1 & Hv2 & Hc).
  destruct (visit_researchgate_facts ps _ _ _ Hv1) as (_ & Hp1 & _).
  destruct (visit_google_scholar_facts ps _ _ _ Hv2) as (_ & Hp2 & _).
  eexists _, _. split; [exact Hc|].
  split; [|split].
  - unfold record_with, source_order. simpl.
    destruct (dict_in "researchgate" ps), (dict_in "google_scholar" ps),
      (dict_in "linkedin" ps); reflexivity.
  - intros k Hk. repeat apply record_with_absent; auto.
  - rewrite Hp2, Hp1, app_assoc. reflexivity.
Qed.

Lemma collect_order_and_skips_witness :
  let self := DashboardUpdater.New
                (VDict [("profiles",
                         VDict [("linkedin", VStr "https://li.example/in/x");
                                ("researchgate", VStr "https://rg.example/p")])])
                (VStr "README.md") in
  let w := offline_world in
  exists data w',
    DashboardUpdater.collect_data self w = (Ok data, w') /\
    dict_keys data = ["researchgate"; "linkedin"] /\
    (forall k, dict_in k [("linkedin", VStr "https://li.example/in/x");
                          ("researchgate", VStr "https://rg.example/p")] = false ->
               dict_get data k = None) /\
    pacing (log w')
    = [HttpGet "https://rg.example/p" ProfileScraper.user_agent; Sleep 2].
Proof.
  exact (collect_order_and_skips
           (DashboardUpdater.New
              (VDict [("profiles",
                       VDict [("linkedin", VStr "https://li.example/in/x");
                              ("researchgate", VStr "https://rg.example/p")])])
              (VStr "README.md"))
           [("linkedin", VStr "https://li.example/in/x");
            ("researchgate", VStr "https://rg.example/p")]
           offline_world
           eq_refl).
Defined.

(* ================================================================== *)
(** * The run *)


Lemma generate_readme_pure (data : dict (dict value)) (w : World) :
  DashboardUpdater.generate_readme data w
  = (Ok (DashboardUpdater.readme_head ++ DashboardUpdater.metrics_block data
         ++ DashboardUpdater.readme_tail
         ++ strftime (clock w (log w)) ++ "*" ++ Text.nl), w).
Proof. reflexivity. Qed.



(* ================================================================== *)
(** * The LinkedIn stub *)

(** C4.  Called for any list of targets in any world, the LinkedIn scraper
    returns the same profile every time, with an empty current position, an
    empty education and no experience, and leaves the world as it found it:
    the history gains no event, so no request is made. *)
Theorem linkedin_fixed_and_silent (targets : list value) (w : World) :
  linkedin_calls targets w = (Ok (map (fun _ => linkedin_profile) targets), w) /\
  dict_get linkedin_profile "current_position" = Some (VStr "") /\
  dict_get linkedin_profile "education" = Some (VStr "") /\
  dict_get linkedin_profile "experience" = Some (VList []).
Proof.
  split; [|repeat split].
  induction targets as [|t ts IH]; simpl; [reflexivity|].
  unfold bind at 1. unfold LinkedInProfile.get_profile_data at 1.
  unfold ret at 1. unfold bind at 1. rewrite IH. reflexivity.
Qed.

(* ================================================================== *)
(** * Rendering *)

Lemma metric_field (data : dict (dict value)) (source name : string) :
  DashboardUpdater.metric data source name
  = match field data source name with
    | Some v => v
    | None => VStr "N/A"
    end.
Proof.
  unfold DashboardUpdater.metric, field, dict_get_or.
  destruct (dict_get data source); reflexivity.
Qed.

(** The metrics block is a function of the four fields it shows. *)
Lemma metrics_block_by_fields (data1 data2 : dict (dict value)) :
  field data1 "researchgate" "publications" = field data2 "researchgate" "publications" ->
  field data1 "google_scholar" "citations" = field data2 "google_scholar" "citations" ->
  field data1 "google_scholar" "h_index" = field data2 "google_scholar" "h_index" ->
  field data1 "google_scholar" "i10_index" = field data2 "google_scholar" "i10_index" ->
  DashboardUpdater.metrics_block data1 = DashboardUpdater.metrics_block data2.
Proof.
  intros H1 H2 H3 H4. unfold DashboardUpdater.metrics_block.
  rewrite !metric_field, H1, H2, H3, H4. reflexivity.
Qed.

(** C9.  Rendering reads nothing of the world but the clock and changes
    nothing: in two worlds whose clocks show the same time, the same record
    renders to the same text, which is a text fixed by the record followed
    by the time stamp. *)
Theorem render_deterministic (data : dict (dict value)) (w1 w2 : World) :
  clock w1 (log w1) = clock w2 (log w2) ->
  exists body doc,
    doc = body ++ strftime (clock w1 (log w1)) ++ "*" ++ Text.nl /\
    body = DashboardUpdater.readme_head ++ DashboardUpdater.metrics_block data
           ++ DashboardUpdater.readme_tail /\
    DashboardUpdater.generate_readme data w1 = (Ok doc, w1) /\
    DashboardUpdater.generate_readme data w2 = (Ok doc, w2).
Proof.
  intro Hclock. eexists _, _. split; [reflexivity|]. split; [reflexivity|].
  rewrite !generate_readme_pure, <- Hclock, !append_assoc. auto.
Qed.

Lemma render_deterministic_witness :
  exists body doc,
    doc = body ++ strftime (clock offline_world (log offline_world)) ++ "*" ++ Text.nl /\
    body = DashboardUpdater.readme_head
           ++ DashboardUpdater.metrics_block [("researchgate", [("publications", VInt 12)])]
           ++ DashboardUpdater.readme_tail /\
    DashboardUpdater.generate_readme
      [("researchgate", [("publications", VInt 12)])] offline_world
    = (Ok doc, offline_world) /\
    DashboardUpdater.generate_readme
      [("researchgate", [("publications", VInt 12)])]
      (emit (Sleep 2) (world_serving "<h1>x</h1>"))
    = (Ok doc, emit (Sleep 2) (world_serving "<h1>x</h1>")).
Proof.
  exact (render_deterministic [("researchgate", [("publications", VInt 12)])]
                              offline_world
                              (emit (Sleep 2) (world_serving "<h1>x</h1>"))
                              eq_refl).
Defined.

(** C10.  Two records that agree on ResearchGate's publications and on
    Google Scholar's citations, h_index and i10_index render to the same
    document when the clocks agree.  In particular the LinkedIn entry and
    every other field of the two networked entries have no effect. *)
Theorem render_reads_four_fields (data1 data2 : dict (dict value)) (w1 w2 : World) :
  field data1 "researchgate" "publications" = field data2 "researchgate" "publications" ->
  field data1 "google_scholar" "citations" = field data2 "google_scholar" "citations" ->
  field data1 "google_scholar" "h_index" = field data2 "google_scholar" "h_index" ->
  field data1 "google_scholar" "i10_index" = field data2 "google_scholar" "i10_index" ->
  clock w1 (log w1) = clock w2 (log w2) ->
  fst (DashboardUpdater.generate_readme data1 w1)
  = fst (DashboardUpdater.generate_readme data2 w2).
Proof.
  intros H1 H2 H3 H4 Hclock. rewrite !generate_readme_pure. cbn [fst].
  rewrite (metrics_block_by_fields data1 data2 H1 H2 H3 H4), Hclock.
  reflexivity.
Qed.

Lemma render_reads_four_fields_witness :
  fst (DashboardUpdater.generate_readme
         [("researchgate",
           [("name", VStr "Yu-Hao Tseng"); ("institution", VStr "NTOU");
            ("publications", VInt 12); ("citations", VInt 40);
            ("research_interests", VList []); ("h_index", VInt 3)]);
          ("google_scholar",
           [("name", VStr "Y. Tseng"); ("citations", VInt 120);
            ("h_index", VInt 15); ("i10_index", VInt 6);
            ("publications", VList [])]);
          ("linkedin", linkedin_profile)]
         offline_world)
  = fst (DashboardUpdater.generate_readme
           [("google_scholar",
             [("i10_index", VInt 6); ("h_index", VInt 15); ("citations", VInt 120)]);
            ("researchgate", [("publications", VInt 12)])]
           (world_serving "")).
Proof.
  exact (render_reads_four_fields
           [("researchgate",
             [("name", VStr "Yu-Hao Tseng"); ("institution", VStr "NTOU");
              ("publications", VInt 12); ("citations", VInt 40);
              ("research_interests", VList []); ("h_index", VInt 3)]);
            ("google_scholar",
             [("name", VStr "Y. Tseng"); ("citations", VInt 120);
              ("h_index", VInt 15); ("i10_index", VInt 6);
              ("publications", VList [])]);
            ("linkedin", linkedin_profile)]
           [("google_scholar",
             [("i10_index", VInt 6); ("h_index", VInt 15); ("citations", VInt 120)]);
            ("researchgate", [("publications", VInt 12)])]
           offline_world (world_serving "")
           eq_refl eq_refl eq_refl eq_refl eq_refl).
Defined.

Lemma field_set_other_source (data : dict (dict value)) (source other name : string)
      (entry : dict value) :
  other <> source ->
  field (dict_set data other entry) source name = field data source name.
Proof.
  intro H. unfold field. now rewrite dict_get_set_other.
Qed.

Lemma field_set_other_field (data : dict (dict value)) (source name other : string)
      (entry : dict value) (v : value) :
  dict_get data source = Some entry -> other <> name ->
  field (dict_set data source (dict_set entry other v)) source name
  = field data source name.
Proof.
  intros He Hne. unfold field.
  now rewrite dict_get_set_same, He, dict_get_set_other.
Qed.

(** The LinkedIn entry has no effect on the document. *)
Lemma render_ignores_linkedin (data : dict (dict value)) (entry : dict value) (w : World) :
  fst (DashboardUpdater.generate_readme (dict_set data "linkedin" entry) w)
  = fst (DashboardUpdater.generate_readme data w).
Proof.
  rewrite !generate_readme_pure. cbn [fst].
  rewrite (metrics_block_by_fields (dict_set data "linkedin" entry) data);
    try (apply field_set_other_source; discriminate).
  reflexivity.
Qed.

(** A field of the ResearchGate entry other than [publications] (the name,
    the institution, the research interests, ...) has no effect on the
    document. *)
Lemma render_ignores_researchgate_field
      (data : dict (dict value)) (entry : dict value) (name : string) (v : value)
      (w : World) :
  dict_get data "researchgate" = Some entry -> name <> "publications" ->
  fst (DashboardUpdater.generate_readme
         (dict_set data "researchgate" (dict_set entry name v)) w)
  = fst (DashboardUpdater.generate_readme data w).
Proof.
  intros He Hne. rewrite !generate_readme_pure. cbn [fst].
  rewrite (metrics_block_by_fields
             (dict_set data "researchgate" (dict_set entry name v)) data);
    try (apply field_set_other_source; discriminate).
  - reflexivity.
  - now apply field_set_other_field.
Qed.

(** A field of the Google Scholar entry other than the three metrics (the
    name, the publication list, ...) has no effect on the document. *)
Lemma render_ignores_google_scholar_field
      (data : dict (dict value)) (entry : dict value) (name : string) (v : value)
      (w : World) :
  dict_get data "google_scholar" = Some entry ->
  name <> "citations" -> name <> "h_index" -> name <> "i10_index" ->
  fst (DashboardUpdater.generate_readme
         (dict_set data "google_scholar" (dict_set entry name v)) w)
  = fst (DashboardUpdater.generate_readme data w).
Proof.
  intros He H1 H2 H3. rewrite !generate_readme_pure. cbn [fst].
  rewrite (metrics_block_by_fields
             (dict_set data "google_scholar" (dict_set entry name v)) data);
    try (apply field_set_other_source; discriminate);
    try (now apply field_set_other_field).
  reflexivity.
Qed.

(* ================================================================== *)
(** * The metrics block of the document *)

Lemma head_ends_newline : exists h0, DashboardUpdater.readme_head = h0 ++ Text.nl.
Proof.
  exists (substring 0 (String.length DashboardUpdater.readme_head - 1)
                    DashboardUpdater.readme_head).
  vm_compute. reflexivity.
Qed.

Lemma tail_starts_newline :
  exists t0, DashboardUpdater.readme_tail = String Text.newline t0.
Proof. unfold DashboardUpdater.readme_tail. eexists. reflexivity. Qed.

Lemma document_shape (h0 p1 a p2 b p3 c p4 d t0 ts : string) :
  (h0 ++ Text.nl)
    ++ (p1 ++ a ++ Text.nl ++ p2 ++ b ++ Text.nl ++ p3 ++ c ++ Text.nl ++ p4 ++ d)
    ++ String Text.newline t0 ++ ts
  = h0 ++ String Text.newline
      ((p1 ++ a) ++ String Text.newline
         ((p2 ++ b) ++ String Text.newline
            ((p3 ++ c) ++ String Text.newline
               ((p4 ++ d) ++ String Text.newline (t0 ++ ts))))).
Proof. unfold Text.nl. repeat rewrite append_assoc. simpl. reflexivity. Qed.

(** The four metric lines are lines of the document, whenever the values
    shown are within one line. *)
Lemma document_metric_lines (data : dict (dict value)) (w : World) :
  exists doc,
    DashboardUpdater.generate_readme data w = (Ok doc, w) /\
    forall label source name,
      In (label, source, name)
         [("- **Publications**: ", "researchgate", "publications");
          ("- **Citations**: ", "google_scholar", "citations");
          ("- **H-index**: ", "google_scholar", "h_index");
          ("- **i10-index**: ", "google_scholar", "i10_index")] ->
      no_newline (label ++ Py.str (DashboardUpdater.metric data source name)) = true ->
      Text.has_line doc (label ++ Py.str (DashboardUpdater.metric data source name))
      = true.
Proof.
  rewrite generate_readme_pure. eexists. split; [reflexivity|].
  destruct head_ends_newline as (h0 & ->).
  destruct tail_starts_newline as (t0 & ->).
  unfold DashboardUpdater.metrics_block. rewrite document_shape.
  intros label source name Hin Hl.
  rewrite !has_line_app_newline.
  destruct Hin as [E | [E | [E | [E | []]]]]; injection E as <- <- <-;
    rewrite (has_line_self _ Hl), ?orb_true_r; reflexivity.
Qed.

Lemma field_none_of_source (data : dict (dict value)) (source name : string) :
  dict_get data source = None \/ dict_get data source = Some [] ->
  field data source name = None.
Proof. unfold field. intros [-> | ->]; reflexivity. Qed.

(** C2, as the code has it.  A metric whose key is absent from the combined
    record is shown as N/A; it is absent when the source has no entry (it
    was skipped) or has the empty entry (it failed).  A metric that is
    present as an integer is shown as that integer: the 0 an extractor
    gives for a field it did not find is shown as 0. *)
Theorem absent_metric_renders_na (data : dict (dict value)) (w : World) :
  exists doc,
    DashboardUpdater.generate_readme data w = (Ok doc, w) /\
    (field data "researchgate" "publications" = None ->
     Text.has_line doc "- **Publications**: N/A" = true) /\
    (field data "google_scholar" "citations" = None ->
     Text.has_line doc "- **Citations**: N/A" = true) /\
    (field data "google_scholar" "h_index" = None ->
     Text.has_line doc "- **H-index**: N/A" = true) /\
    (field data "google_scholar" "i10_index" = None ->
     Text.has_line doc "- **i10-index**: N/A" = true) /\
    (forall n, field data "researchgate" "publications" = Some (VInt n) ->
               Text.has_line doc ("- **Publications**: " ++ Text.of_Z n) = true) /\
    (forall n, field data "google_scholar" "citations" = Some (VInt n) ->
               Text.has_line doc ("- **Citations**: " ++ Text.of_Z n) = true) /\
    (forall n, field data "google_scholar" "h_index" = Some (VInt n) ->
               Text.has_line doc ("- **H-index**: " ++ Text.of_Z n) = true) /\
    (forall n, field data "google_scholar" "i10_index" = Some (VInt n) ->
               Text.has_line doc ("- **i10-index**: " ++ Text.of_Z n) = true) /\
    (forall source name,
        dict_get data source = None \/ dict_get data source = Some [] ->
        field data source name = None).
Proof.
  destruct (document_metric_lines data w) as (doc & Hgen & Hlines).
  exists doc. split; [exact Hgen|].
  repeat match goal with
         | |- _ /\ _ => split
         end.
  9: exact (field_none_of_source data).
  1-4: intro Hf;
       match goal with
       | |- Text.has_line _ ?l = true =>
           match type of Hf with
           | field _ ?s ?f = None =>
               let label := eval vm_compute in (substring 0 (String.length l - 3) l) in
               pose proof (Hlines label s f) as Hl
           end
       end;
       rewrite metric_field, Hf in Hl; apply Hl; [simpl; tauto | reflexivity].
  all: intros n Hf;
       match goal with
       | |- Text.has_line _ (?label ++ _) = true =>
           match type of Hf with
           | field _ ?s ?f = _ => pose proof (Hlines label s f) as Hl
           end
       end;
       rewrite metric_field, Hf in Hl; apply Hl; [simpl; tauto |];
       change (Py.str (VInt n)) with (Text.of_Z n);
       rewrite no_newline_append, of_Z_no_newline; reflexivity.
Qed.

Lemma absent_metric_renders_na_witness :
  exists doc,
    DashboardUpdater.generate_readme [("researchgate", [])] offline_world
    = (Ok doc, offline_world) /\
    Text.has_line doc "- **Publications**: N/A" = true /\
    Text.has_line doc "- **Citations**: N/A" = true /\
    Text.has_line doc "- **H-index**: N/A" = true /\
    Text.has_line doc "- **i10-index**: N/A" = true.
Proof.
  destruct (absent_metric_renders_na [("researchgate", [])] offline_world)
    as (doc & Hgen & H1 & H2 & H3 & H4 & _).
  exists doc. split; [exact Hgen|].
  split; [exact (H1 eq_refl)|]. split; [exact (H2 eq_refl)|].
  split; [exact (H3 eq_refl) | exact (H4 eq_refl)].
Defined.

(** C2 as stated fails for a field the extractor defaulted: every source
    answers with a page that has no counts, the ResearchGate extractor gives
    publications 0, and the document shows 0, not N/A. *)
Lemma defaulted_metric_counterexample :
  exists data w' doc,
    DashboardUpdater.collect_data default_updater (world_serving blank_page)
    = (Ok data, w') /\
    ResearchGateProfile._extract_publications blank_page = Ok 0%Z /\
    field data "researchgate" "publications" = Some (VInt 0) /\
    DashboardUpdater.generate_readme data w' = (Ok doc, w') /\
    Text.has_line doc "- **Publications**: N/A" = false /\
    Text.has_line doc "- **Publications**: 0" = true.
Proof.
  eexists _, _, _.
  split; [vm_compute; reflexivity|].
  split; [vm_compute; reflexivity|].
  split; [vm_compute; reflexivity|].
  split; [vm_compute; reflexivity|].
  split; vm_compute; reflexivity.
Qed.

(* ================================================================== *)
(** * Google Scholar end to end *)






(* ================================================================== *)
(** * The configuration file *)

Section ConfigFacts.
Import DashboardUpdater.
Context {Y : Yaml}.

Lemma load_config_absent (path : string) (w : World) :
  dict_get (files w) path = None -> refuses w path = None ->
  _load_config path w
  = (Ok default_config, set_files w (dict_set (files w) path (dump default_config))).
Proof.
  intros H Hw.
  unfold _load_config, _create_default_config, try_except, bind, read_file, write_file.
  rewrite H. cbn [is_class exn_cls exn_class_eqb]. rewrite Hw. reflexivity.
Qed.

Lemma load_config_present (path content : string) (w : World) :
  dict_get (files w) path = Some content ->
  _load_config path w
  = match safe_load content with
    | Ok v => (Ok v, w)
    | Raise e =>
        if is_class FileNotFoundError e then _create_default_config path w
        else (Raise e, w)
    end.
Proof.
  intro H. unfold _load_config, try_except, bind, read_file, lift.
  rewrite H. destruct (safe_load content); reflexivity.
Qed.

Lemma is_class_false (c : exn_class) (e : exn) :
  exn_cls e <> c -> is_class c e = false.
Proof.
  unfold is_class. intro H.
  destruct (exn_cls e), c; try reflexivity; congruence.
Qed.

End ConfigFacts.

(** C7.  Whatever the YAML library: when the configuration file is absent
    (and the file system accepts the path), loading writes the default
    configuration to the path and returns it;
    when the file is there and the library raises on its content, loading
    raises the same exception, and so do [__init__] and [main]: the run
    stops in the world it started in, nothing fetched, written or printed;
    when the library reads the content, loading returns what it read, as
    it is. *)
Theorem load_config_two_tier (Y : Yaml) (path : string) (w : World) :
  (dict_get (files w) path = None -> refuses w path = None ->
   DashboardUpdater._load_config path w
   = (Ok DashboardUpdater.default_config,
      set_files w (dict_set (files w) path (dump DashboardUpdater.default_config)))) /\
  (forall content e,
      dict_get (files w) path = Some content ->
      safe_load content = Raise e ->
      exn_cls e <> FileNotFoundError ->
      DashboardUpdater._load_config path w = (Raise e, w) /\
      DashboardUpdater.__init__ path w = (Raise e, w) /\
      (path = "dashboard_config.yaml" -> DashboardUpdater.main w = (Raise e, w))) /\
  (forall content v,
      dict_get (files w) path = Some content ->
      safe_load content = Ok v ->
      DashboardUpdater._load_config path w = (Ok v, w)).
Proof.
  split; [apply load_config_absent|].
  split;
    [|intros content v Hfile Hload;
      now rewrite (load_config_present path content w Hfile), Hload].
  intros content e Hfile Hload Hcls.
  assert (H : DashboardUpdater._load_config path w = (Raise e, w)).
  { rewrite (load_config_present path content w Hfile), Hload.
    now rewrite is_class_false. }
  split; [exact H|].
  assert (Hi : DashboardUpdater.__init__ path w = (Raise e, w)).
  { unfold DashboardUpdater.__init__, bind. now rewrite H. }
  split; [exact Hi|].
  intros ->. unfold DashboardUpdater.main, bind. now rewrite Hi.
Qed.

Lemma load_config_two_tier_witness :
  (DashboardUpdater._load_config "dashboard_config.yaml" offline_world
   = (Ok DashboardUpdater.default_config,
      set_files offline_world
                [("dashboard_config.yaml", dump DashboardUpdater.default_config)])) /\
  exists e,
    exn_cls e = YAMLError /\
    DashboardUpdater._load_config "dashboard_config.yaml" world_with_malformed_config
    = (Raise e, world_with_malformed_config) /\
    DashboardUpdater.__init__ "dashboard_config.yaml" world_with_malformed_config
    = (Raise e, world_with_malformed_config) /\
    DashboardUpdater.main world_with_malformed_config
    = (Raise e, world_with_malformed_config).
Proof.
  split.
  - exact (proj1 (load_config_two_tier block_yaml "dashboard_config.yaml" offline_world)
                 eq_refl eq_refl).
  - exists (BlockYaml.yaml_error "scalar outside the block fragment").
    split; [reflexivity|].
    destruct (proj1 (proj2 (load_config_two_tier block_yaml "dashboard_config.yaml"
                                                 world_with_malformed_config))
                    malformed_config
                    (BlockYaml.yaml_error "scalar outside the block fragment")
                    eq_refl eq_refl (fun H => ltac:(discriminate H)))
      as (H1 & H2 & H3).
    split; [exact H1|]. split; [exact H2 | exact (H3 eq_refl)].
Defined.

(** C6.  With the block-style model of the YAML library: when no file is at
    the path and the file system accepts it, loading returns the default configuration and leaves at the
    path a file, the dump of the default configuration, which contains the
    three default profile addresses; loading again reads that file and
    returns a configuration equal to the default one. *)
Theorem default_config_round_trip (path : string) (w : World) :
  dict_get (files w) path = None -> refuses w path = None ->
  let written := BlockYaml.dump DashboardUpdater.default_config in
  let w' := set_files w (dict_set (files w) path written) in
  DashboardUpdater._load_config (Y := block_yaml) path w
  = (Ok DashboardUpdater.default_config, w') /\
  dict_get (files w') path = Some written /\
  (forall target, In target default_urls -> Text.contains target written = true) /\
  exists config,
    DashboardUpdater._load_config (Y := block_yaml) path w' = (Ok config, w') /\
    Py.eqb config DashboardUpdater.default_config = true /\
    Py.eqb DashboardUpdater.default_config config = true.
Proof.
  intros Habsent Hwrite written w'.
  split; [exact (load_config_absent path w Habsent Hwrite)|].
  assert (Hfile : dict_get (files w') path = Some written)
    by apply dict_get_set_same.
  split; [exact Hfile|]. split.
  - intros target [<- | [<- | [<- | []]]]; vm_compute; reflexivity.
  - rewrite (load_config_present path written w' Hfile).
    change (@safe_load block_yaml written) with (BlockYaml.load written).
    destruct (BlockYaml.load written) as [config | e] eqn:E.
    + exists config. split; [reflexivity|].
      vm_compute in E. injection E as <-. split; vm_compute; reflexivity.
    + vm_compute in E. discriminate E.
Qed.

Lemma default_config_round_trip_witness :
  let written := BlockYaml.dump DashboardUpdater.default_config in
  let w' := set_files offline_world [("dashboard_config.yaml", written)] in
  DashboardUpdater._load_config (Y := block_yaml) "dashboard_config.yaml" offline_world
  = (Ok DashboardUpdater.default_config, w') /\
  dict_get (files w') "dashboard_config.yaml" = Some written /\
  (forall target, In target default_urls -> Text.contains target written = true) /\
  exists config,
    DashboardUpdater._load_config (Y := block_yaml) "dashboard_config.yaml" w'
    = (Ok config, w') /\
    Py.eqb config DashboardUpdater.default_config = true /\
    Py.eqb DashboardUpdater.default_config config = true.
Proof.
  exact (default_config_round_trip "dashboard_config.yaml" offline_world
                                   eq_refl eq_refl).
Defined.

(* ================================================================== *)
(** * Further properties: the counts are not negative *)

Lemma digit_value_nonneg (c : ascii) :
  Text.is_digit c = true -> (0 <= Text.digit_value c)%Z.
Proof.
  unfold Text.is_digit, Text.between, Text.digit_value. intro H.
  apply andb_true_iff in H. destruct H as [H _]. apply N.leb_le in H. lia.
Qed.

Lemma decimal_from_nonneg (s : string) :
  Text.all Text.is_digit s = true ->
  forall acc, (0 <= acc)%Z -> (0 <= Text.decimal_from acc s)%Z.
Proof.
  induction s as [|c s IH]; cbn [Text.all Text.decimal_from]; intros H acc Hacc;
    [assumption|].
  apply andb_true_iff in H. destruct H as [Hc Hs].
  apply IH; [assumption|]. pose proof (digit_value_nonneg c Hc). lia.
Qed.

Lemma decimal_value_nonneg (s : string) :
  Text.all Text.is_digit s = true -> (0 <= Text.decimal_value s)%Z.
Proof. intro H. apply decimal_from_nonneg; [assumption | lia]. Qed.

Section CountFacts.
Import Re.

(** A count taken from the leftmost match is returned and is not
    negative. *)
Lemma search_count (pattern : string) (flags : bool) (f : string -> result Z) :
  compiles_to digit_group_only pattern = true ->
  (forall html, f html = match search pattern html flags with
                         | Raise e => Raise e
                         | Ok (Some m) => int_of (group1 m)
                         | Ok None => Ok 0%Z
                         end) ->
  forall html, exists n, f html = Ok n /\ (0 <= n)%Z.
Proof.
  unfold compiles_to, digit_group_only.
  destruct (compile pattern) as [r|] eqn:Ec; [|discriminate].
  intros Hds Hf html. apply andb_true_iff in Hds. destruct Hds as [Hd Hs].
  rewrite Hf, (search_compiled _ _ _ _ Ec).
  destruct (search_in flags r html) as [m|] eqn:E.
  - destruct (search_sound _ _ _ _ E) as (pre & rest & _ & Hm).
    destruct (digit_capture _ _ _ _ Hd Hs Hm) as (ds & Eg & Hall & Hne).
    rewrite Eg, (int_of_digits _ Hall Hne).
    eexists. split; [reflexivity | now apply decimal_value_nonneg].
  - exists 0%Z. split; [reflexivity | lia].
Qed.

(** A count taken by position from the matches is returned and is not
    negative. *)
Lemma findall_count (pattern : string) (i : nat) (f : string -> result Z) :
  compiles_to digit_group_only pattern = true ->
  (forall html, f html = match findall pattern html with
                         | Raise e => Raise e
                         | Ok matches =>
                             if (i <? List.length matches)%nat
                             then int_of (nth_error matches i)
                             else Ok 0%Z
                         end) ->
  forall html, exists n, f html = Ok n /\ (0 <= n)%Z.
Proof.
  unfold compiles_to, digit_group_only.
  destruct (compile pattern) as [r|] eqn:Ec; [|discriminate].
  intros Hds Hf html. apply andb_true_iff in Hds. destruct Hds as [Hd Hs].
  rewrite Hf, (findall_compiled _ _ _ Ec), nth_findall_int by assumption.
  eexists. split; [reflexivity|]. unfold nth_int.
  destruct (nth_error (findall_in NOFLAG r html) i) as [ds|] eqn:En; [|lia].
  apply nth_error_In in En.
  destruct (findall_digits _ _ _ Hd Hs _ En) as [Hall _].
  now apply decimal_value_nonneg.
Qed.

End CountFacts.

(** Every field extractor of the ResearchGate scraper returns, the counts
    not being negative. *)
Lemma researchgate_extractors_return (html : string) :
  exists name institution publications citations h_index,
    ResearchGateProfile._extract_name html = Ok name /\
    ResearchGateProfile._extract_institution html = Ok institution /\
    ResearchGateProfile._extract_publications html = Ok publications /\
    ResearchGateProfile._extract_citations html = Ok citations /\
    ResearchGateProfile._extract_h_index html = Ok h_index /\
    (0 <= publications)%Z /\ (0 <= citations)%Z /\ (0 <= h_index)%Z.
Proof.
  destruct (search_text_extraction ResearchGateProfile.name_pattern Re.NOFLAG
              ResearchGateProfile._extract_name eq_refl (fun _ => eq_refl) html)
    as ((name & Hn) & _).
  destruct (search_text_extraction ResearchGateProfile.institution_pattern Re.IGNORECASE
              ResearchGateProfile._extract_institution eq_refl (fun _ => eq_refl) html)
    as ((inst & Hi) & _).
  destruct (search_count ResearchGateProfile.publications_pattern Re.IGNORECASE
              ResearchGateProfile._extract_publications eq_refl (fun _ => eq_refl) html)
    as (p & Hp & Hp0).
  destruct (search_count ResearchGateProfile.citations_pattern Re.IGNORECASE
              ResearchGateProfile._extract_citations eq_refl (fun _ => eq_refl) html)
    as (c & Hc & Hc0).
  destruct (search_count ResearchGateProfile.h_index_pattern Re.IGNORECASE
              ResearchGateProfile._extract_h_index eq_refl (fun _ => eq_refl) html)
    as (h & Hh & Hh0).
  exists name, inst, p, c, h. auto 10.
Qed.

(** Every field extractor of the Google Scholar scraper returns, the counts
    not being negative. *)
Lemma google_scholar_extractors_return (html : string) :
  exists name citations h_index i10_index,
    GoogleScholarProfile._extract_name html = Ok name /\
    GoogleScholarProfile._extract_citations html = Ok citations /\
    GoogleScholarProfile._extract_h_index html = Ok h_index /\
    GoogleScholarProfile._extract_i10_index html = Ok i10_index /\
    (0 <= citations)%Z /\ (0 <= h_index)%Z /\ (0 <= i10_index)%Z.
Proof.
  destruct (search_text_extraction GoogleScholarProfile.name_pattern Re.NOFLAG
              GoogleScholarProfile._extract_name eq_refl (fun _ => eq_refl) html)
    as ((name & Hn) & _).
  destruct (search_count GoogleScholarProfile.cell_pattern Re.NOFLAG
              GoogleScholarProfile._extract_citations eq_refl (fun _ => eq_refl) html)
    as (c & Hc & Hc0).
  destruct (findall_count GoogleScholarProfile.cell_pattern 1
              GoogleScholarProfile._extract_h_index eq_refl (fun _ => eq_refl) html)
    as (h & Hh & Hh0).
  destruct (findall_count GoogleScholarProfile.cell_pattern 2
              GoogleScholarProfile._extract_i10_index eq_refl (fun _ => eq_refl) html)
    as (i & Hi & Hi0).
  exists name, c, h, i. auto 10.
Qed.

(* ================================================================== *)
(** * Further properties: one call of a scraper *)

Lemma status_error (st : Z) :
  (400 <= st < 600)%Z ->
  (400 <=? st)%Z && (st <? 500)%Z = true \/
  ((400 <=? st)%Z && (st <? 500)%Z = false /\
   (500 <=? st)%Z && (st <? 600)%Z = true).
Proof.
  intro H. destruct (Z.ltb_spec st 500).
  - left. apply andb_true_iff. split; [apply Z.leb_le; lia | reflexivity].
  - right. split.
    + apply andb_false_iff. right. reflexivity.
    + apply andb_true_iff. split; [apply Z.leb_le | apply Z.ltb_lt]; lia.
Qed.

Lemma fetch_fails_dec (w : World) (target : value) :
  fetch_fails w target \/ ~ fetch_fails w target.
Proof.
  unfold fetch_fails. destruct target as [| ? | ? | u | ? | ?]; auto.
  destruct (net w (log w) u); auto. lia.
Qed.

(** A status in the error range, read from the test the code makes. *)
Ltac error_status :=
  match goal with
  | E : _ && _ = true |- _ =>
      apply andb_true_iff in E; destruct E as [?Ea ?Eb];
      apply Z.leb_le in Ea; apply Z.ltb_lt in Eb; lia
  end.

(** Close the outcome of a call whose request failed: the empty entry, and
    one error report after the request. *)
Ltac failed_call :=
  eexists _, _; split; [reflexivity|]; split; [|split];
  [ intros _; split; [reflexivity|]; eexists; split;
    [eexists; reflexivity
    | cbn [log emit request_events]; rewrite <- ?app_assoc; reflexivity]
  | let H := fresh in
    intro H; exfalso; apply H; unfold fetch_fails; try exact I;
    match goal with
    | E : net _ _ _ = _ |- _ => rewrite E; try exact I; error_status
    end
  | intros _; unfold fetch_fails; try exact I;
    match goal with
    | E : net _ _ _ = _ |- _ => rewrite E; try exact I; error_status
    end ].

(** Split a call on its target, the answer of the network and the status,
    closing the cases in which the request failed. *)
Ltac call_outcomes target w :=
  unfold ProfileScraper.get, ProfileScraper.raise_for_status;
  unfold_m;
  destruct target as [| ? | ? | u | ? | ?]; try failed_call;
  destruct (net w (log w) u) as [e | r] eqn:Enet; [failed_call|];
  destruct ((400 <=? status_code r)%Z && (status_code r <? 500)%Z) eqn:E4;
    [failed_call|];
  destruct ((500 <=? status_code r)%Z && (status_code r <? 600)%Z) eqn:E5;
    [failed_call|].

(** Close the outcome of a call whose request succeeded. *)
Ltac answered_call u r :=
  eexists _, _; split; [reflexivity|]; split; [|split];
  [ let H := fresh in
    intro H; exfalso; unfold fetch_fails in H;
    match goal with
    | E : net _ _ _ = _ |- _ => rewrite E in H
    end;
    let E := fresh in
    destruct (status_error _ H) as [E | [_ E]]; congruence
  | intros _; exists u, r; cbn [log emit];
    split; [reflexivity|]; split; [eassumption|]; split; [|reflexivity];
    unfold researchgate_page_entry, google_scholar_page_entry;
    repeat eexists; eassumption
  | discriminate ].

Lemma researchgate_call_outcome (target : value) (w : World) :
  call_outcome "ResearchGate" researchgate_page_entry researchgate_call_of target w.
Proof.
  unfold call_outcome, researchgate_call_of, ResearchGateProfile.get_profile_data,
    ResearchGateProfile.__init__.
  cbn [ResearchGateProfile.session ResearchGateProfile.profile_url].
  call_outcomes target w.
  destruct (researchgate_extractors_return (text r))
    as (name & inst & p & c & h & Hn & Hi & Hp & Hc & Hh & _).
  rewrite Hn, Hi, Hp, Hc, Hh.
  answered_call u r.
Qed.

Lemma google_scholar_call_outcome (target : value) (w : World) :
  call_outcome "Google Scholar" google_scholar_page_entry google_scholar_call_of
               target w.
Proof.
  unfold call_outcome, google_scholar_call_of, GoogleScholarProfile.get_profile_data,
    GoogleScholarProfile.__init__.
  cbn [GoogleScholarProfile.session GoogleScholarProfile.profile_url].
  call_outcomes target w.
  destruct (google_scholar_extractors_return (text r))
    as (name & c & h & i & Hn & Hc & Hh & Hi & _).
  rewrite Hn, Hc, Hh, Hi.
  answered_call u r.
Qed.


(** The history a call leaves, whatever its outcome. *)
Lemma outcome_gives_trace (label : string) (page_entry : string -> dict value -> Prop)
      (call : value -> M (dict value)) (target : value) (w : World)
      (entry : dict value) (w' : World) :
  call_outcome label page_entry call target w ->
  call target w = (Ok entry, w') ->
  call_trace label target w w'.
Proof.
  intros (e0 & w0 & H0 & Hfail & Hok & _) H.
  rewrite H in H0. injection H0 as <- <-. unfold call_trace.
  destruct (fetch_fails_dec w target) as [Hf | Hf].
  - destruct (Hfail Hf) as (_ & e & He & Hlog).
    exists [e]. split; [exact Hlog|]. right. eauto.
  - destruct (Hok Hf) as (u & r & -> & _ & _ & Hlog).
    exists []. split; [exact Hlog | now left].
Qed.

Lemma researchgate_call_trace (target : value) (w : World)
      (entry : dict value) (w' : World) :
  researchgate_call_of target w = (Ok entry, w') ->
  same_but_log w w' /\ call_trace "ResearchGate" target w w'.
Proof.
  intro H. split.
  - destruct (researchgate_call target w) as (e1 & w1 & H1 & Hsame & _).
    unfold researchgate_call_of in H. rewrite H in H1. now injection H1 as <- <-.
  - exact (outcome_gives_trace _ _ _ _ _ _ _ (researchgate_call_outcome target w) H).
Qed.

Lemma google_scholar_call_trace (target : value) (w : World)
      (entry : dict value) (w' : World) :
  google_scholar_call_of target w = (Ok entry, w') ->
  same_but_log w w' /\ call_trace "Google Scholar" target w w'.
Proof.
  intro H. split.
  - destruct (google_scholar_call target w) as (e1 & w1 & H1 & Hsame & _).
    unfold google_scholar_call_of in H. rewrite H in H1. now injection H1 as <- <-.
  - exact (outcome_gives_trace _ _ _ _ _ _ _ (google_scholar_call_outcome target w) H).
Qed.

(** The entry a call of the ResearchGate scraper returns. *)
Lemma researchgate_call_shape (target : value) (w : World)
      (e : dict value) (w' : World) :
  researchgate_call_of target w = (Ok e, w') -> researchgate_shape e.
Proof.
  intro H.
  destruct (researchgate_call_outcome target w) as (e2 & w2 & H2 & Hfail & Hok & _).
  rewrite H in H2. injection H2 as <- <-.
  destruct (fetch_fails_dec w target) as [Hf | Hf].
  - left. exact (proj1 (Hfail Hf)).
  - right.
    destruct (Hok Hf)
      as (u & r & _ & _ & (name & inst & p & c & h & _ & _ & Hp & Hc & Hh & ->) & _).
    destruct (researchgate_extractors_return (text r))
      as (name' & inst' & p' & c' & h' & _ & _ & Hp' & Hc' & Hh' & ? & ? & ?).
    rewrite Hp in Hp'. rewrite Hc in Hc'. rewrite Hh in Hh'.
    injection Hp' as <-. injection Hc' as <-. injection Hh' as <-.
    exists name, inst, p, c, h. auto.
Qed.

(** The entry a call of the Google Scholar scraper returns. *)
Lemma google_scholar_call_shape (target : value) (w : World)
      (e : dict value) (w' : World) :
  google_scholar_call_of target w = (Ok e, w') -> google_scholar_shape e.
Proof.
  intro H.
  destruct (google_scholar_call_outcome target w) as (e2 & w2 & H2 & Hfail & Hok & _).
  rewrite H in H2. injection H2 as <- <-.
  destruct (fetch_fails_dec w target) as [Hf | Hf].
  - left. exact (proj1 (Hfail Hf)).
  - right.
    destruct (Hok Hf)
      as (u & r & _ & _ & (name & c & h & i & _ & Hc & Hh & Hi & ->) & _).
    destruct (google_scholar_extractors_return (text r))
      as (name' & c' & h' & i' & _ & Hc' & Hh' & Hi' & ? & ? & ?).
    rewrite Hc in Hc'. rewrite Hh in Hh'. rewrite Hi in Hi'.
    injection Hc' as <-. injection Hh' as <-. injection Hi' as <-.
    exists name, c, h, i. auto.
Qed.

(* ================================================================== *)
(** * Further properties: collecting *)

(** [collect_data] raises before it does anything, and only for want of a
    [profiles] mapping. *)
Lemma collect_data_raise (self : DashboardUpdater.t) (w : World) (e : exn) (w' : World) :
  DashboardUpdater.collect_data self w = (Raise e, w') ->
  w' = w /\
  (forall w0, DashboardUpdater.collect_data self w0 = (Raise e, w0)) /\
  (forall ps, subscript (DashboardUpdater.config self) "profiles" <> Ok (VDict ps)) /\
  ((exn_cls e = KeyError /\
    exists d, DashboardUpdater.config self = VDict d /\ dict_get d "profiles" = None) \/
   exn_cls e = TypeError).
Proof.
  destruct self as [c p]. cbn [DashboardUpdater.config].
  destruct (subscript c "profiles") as [pv | e0] eqn:Es.
  - destruct pv as [| b | z | s | l | ps].
    6: { intro H. destruct (collect_data_steps (DashboardUpdater.New c p) ps Es w)
           as (e1 & w1 & e2 & w2 & _ & _ & Hc).
         rewrite Hc in H. discriminate H. }
    all: unfold DashboardUpdater.collect_data; unfold_m;
      cbn [DashboardUpdater.config]; rewrite Es; cbn [contains subscript].
    4: destruct (Text.contains "researchgate" s);
         [|destruct (Text.contains "google_scholar" s);
           [|destruct (Text.contains "linkedin" s)]].
    8: destruct (existsb (Py.eqb (VStr "researchgate")) l);
         [|destruct (existsb (Py.eqb (VStr "google_scholar")) l);
           [|destruct (existsb (Py.eqb (VStr "linkedin")) l)]].
    all: intro H; try discriminate H; injection H as <- <-;
      (split; [reflexivity|]); (split; [reflexivity|]);
      (split; [discriminate|]); right; reflexivity.
  - unfold DashboardUpdater.collect_data; unfold_m;
      cbn [DashboardUpdater.config]; rewrite Es.
    intro H. injection H as <- <-.
    split; [reflexivity|]. split; [reflexivity|]. split; [discriminate|].
    destruct c as [| b | z | s | l | d];
      try (right; simpl in Es; injection Es as <-; reflexivity).
    simpl in Es. destruct (dict_get d "profiles") eqn:Ed; [discriminate|].
    injection Es as <-. left. split; [reflexivity|]. eauto.
Qed.

(** X2.  When [collect_data] raises, it has done nothing yet: the world is
    the one it started in, no request sent, nothing printed.  It raises only
    when the configuration has no [profiles] mapping: [KeyError] when the
    configuration is a mapping without the key, [TypeError] in every other
    case.  [run_update] then raises the same exception after its first
    line, with no document written. *)
Theorem collect_data_failure (self : DashboardUpdater.t) (w : World)
        (e : exn) (w' : World) :
  DashboardUpdater.collect_data self w = (Raise e, w') ->
  w' = w /\
  (forall ps, subscript (DashboardUpdater.config self) "profiles" <> Ok (VDict ps)) /\
  ((exn_cls e = KeyError /\
    exists d, DashboardUpdater.config self = VDict d /\ dict_get d "profiles" = None) \/
   exn_cls e = TypeError) /\
  DashboardUpdater.run_update self w = (Raise e, emit (Print starting_line) w).
Proof.
  intro H. destruct (collect_data_raise self w e w' H) as (Hw & Hany & Hps & Hcls).
  split; [exact Hw|]. split; [exact Hps|]. split; [exact Hcls|].
  unfold DashboardUpdater.run_update. unfold bind at 1. unfold print at 1.
  unfold bind at 1. unfold starting_line. now rewrite Hany.
Qed.

Lemma collect_data_failure_witness :
  DashboardUpdater.run_update updater_without_profiles offline_world
  = (Raise (Exn KeyError "'profiles'"), emit (Print starting_line) offline_world).
Proof.
  exact (proj2 (proj2 (proj2
           (collect_data_failure updater_without_profiles offline_world
                                 (Exn KeyError "'profiles'") offline_world
                                 eq_refl)))).
Defined.

Lemma pacing_request_events (target : value) :
  pacing (request_events target) = request_events target.
Proof. destruct target; reflexivity. Qed.

Lemma same_but_log_trans (a b c : World) :
  same_but_log a b -> same_but_log b c -> same_but_log a c.
Proof.
  unfold same_but_log. intros (H1 & H2 & H3 & H4) (H5 & H6 & H7 & H8).
  repeat split; congruence.
Qed.

(** The history one step of [collect_data] leaves. *)
Lemma visit_gives_trace (ps : dict value) (source label : string)
      (call : value -> M (dict value)) (w w' : World) (e : dict value) :
  (forall target w0 e0 w1,
      call target w0 = (Ok e0, w1) ->
      same_but_log w0 w1 /\ call_trace label target w0 w1) ->
  visit ps source call w e w' ->
  same_but_log w w' /\ visit_trace ps source label w w'.
Proof.
  intros Hcall. unfold visit, visit_trace, visit_events.
  destruct (dict_get ps source) as [target|].
  - intros (w1 & Hc & ->).
    destruct (Hcall _ _ _ _ Hc) as (Hsame & reports & Hlog & Hrep).
    split; [exact Hsame|].
    exists (request_events target ++ reports ++ [Sleep 2])%list.
    cbn [log emit]. rewrite Hlog, <- !app_assoc.
    split; [reflexivity|]. split.
    + rewrite !pacing_app, pacing_request_events.
      destruct Hrep as [-> | (ev & -> & msg & ->)]; reflexivity.
    + intros line Hin. apply in_app_or in Hin. destruct Hin as [Hin | Hin].
      * destruct target; simpl in Hin; try tauto.
        destruct Hin as [Hin | []]. discriminate Hin.
      * apply in_app_or in Hin.
        destruct Hin as [Hin | [Hin | []]]; [|discriminate Hin].
        destruct Hrep as [-> | (ev & -> & Hev)]; [destruct Hin|].
        destruct Hin as [-> | []]. exact Hev.
  - intros ->. split; [unfold same_but_log; auto|].
    exists []. rewrite app_nil_r. repeat split. intros line [].
Qed.

Lemma visit_traces_collect (ps : dict value) (w w1 w2 : World) :
  visit_trace ps "researchgate" "ResearchGate" w w1 ->
  visit_trace ps "google_scholar" "Google Scholar" w1 w2 ->
  exists evs, log w2 = (log w ++ evs)%list /\ collect_trace ps evs.
Proof.
  intros (evs1 & Hl1 & Hp1 & He1) (evs2 & Hl2 & Hp2 & He2).
  exists (evs1 ++ evs2)%list. rewrite Hl2, Hl1, <- app_assoc.
  split; [reflexivity|]. split.
  - now rewrite pacing_app, Hp1, Hp2.
  - intros line Hin. apply in_app_or in Hin. destruct Hin; auto.
Qed.

(** The history [collect_data] leaves; nothing else of the world changes. *)
Lemma collect_data_trace (self : DashboardUpdater.t) (ps : dict value) (w : World) :
  subscript (DashboardUpdater.config self) "profiles" = Ok (VDict ps) ->
  exists data w' evs,
    DashboardUpdater.collect_data self w = (Ok data, w') /\
    same_but_log w w' /\
    log w' = (log w ++ evs)%list /\
    collect_trace ps evs.
Proof.
  intro Hps.
  destruct (collect_data_steps self ps Hps w) as (e1 & w1 & e2 & w2 & Hv1 & Hv2 & Hc).
  destruct (visit_gives_trace _ _ _ _ _ _ _ researchgate_call_trace Hv1) as (Hs1 & Ht1).
  destruct (visit_gives_trace _ _ _ _ _ _ _ google_scholar_call_trace Hv2) as (Hs2 & Ht2).
  destruct (visit_traces_collect ps _ _ _ Ht1 Ht2) as (evs & Hlog & Hevs).
  eexists _, w2, evs. split; [exact Hc|].
  split; [exact (same_but_log_trans _ _ _ Hs1 Hs2)|]. auto.
Qed.

(* ================================================================== *)
(** * Further properties: the run *)

(** [run_update] up to the writing of the document. *)
Lemma run_update_steps (self : DashboardUpdater.t) (ps : dict value) (p : string)
      (w : World) :
  subscript (DashboardUpdater.config self) "profiles" = Ok (VDict ps) ->
  DashboardUpdater.readme_path self = VStr p ->
  exists w1 evs doc,
    log w1 = (log w ++ [Print starting_line] ++ evs)%list /\
    collect_trace ps evs /\
    files w1 = files w /\ refuses w1 = refuses w /\
    DashboardUpdater.run_update self w
    = match refuses w p with
      | Some e => (Raise e, w1)
      | None =>
          (Ok tt,
           emit (Print completed_line)
             (emit (Print (updated_line (clock w1 (log w1))))
                (set_files w1 (dict_set (files w) p doc))))
      end.
Proof.
  intros Hps Hpath.
  destruct (collect_data_trace self ps (emit (Print starting_line) w) Hps)
    as (data & w1 & evs & Hc & (Hfiles & Hnet & Hclock & Href) & Hlog & Hevs).
  cbn [files net clock refuses log emit] in Hfiles, Hnet, Hclock, Href, Hlog.
  eexists w1, evs, _.
  split; [rewrite Hlog, <- app_assoc; reflexivity|].
  split; [exact Hevs|]. split; [exact Hfiles|]. split; [exact Href|].
  unfold DashboardUpdater.run_update, DashboardUpdater.update_readme.
  unfold bind at 1. unfold print at 1. unfold bind at 1.
  unfold starting_line in Hc. rewrite Hc.
  unfold bind at 1. rewrite generate_readme_pure. rewrite Hpath.
  unfold bind at 1. unfold bind at 1. unfold write_file. rewrite Href.
  destruct (refuses w p); [reflexivity|].
  unfold_m. unfold now, updated_line, completed_line.
  cbn [clock log set_files files]. rewrite Hfiles. reflexivity.
Qed.




(** X4.  A run whose README path the file system refuses.  [run_update]
    raises the error of the file system after collecting: the requests and
    pauses are in the history, no file has changed, and the console shows
    the first line and error reports of the scrapers only, neither
    "README.md updated successfully" nor "Dashboard update completed!". *)
Theorem refused_write_stops_run (self : DashboardUpdater.t) (ps : dict value)
        (p : string) (w : World) (e : exn) :
  subscript (DashboardUpdater.config self) "profiles" = Ok (VDict ps) ->
  DashboardUpdater.readme_path self = VStr p ->
  refuses w p = Some e ->
  exists w' evs,
    DashboardUpdater.run_update self w = (Raise e, w') /\
    files w' = files w /\
    log w' = (log w ++ [Print starting_line] ++ evs)%list /\
    collect_trace ps evs.
Proof.
  intros Hps Hpath Hwrite.
  destruct (run_update_steps self ps p w Hps Hpath)
    as (w1 & evs & doc & Hlog & Hevs & Hfiles & _ & Hrun).
  rewrite Hwrite in Hrun. exists w1, evs. auto.
Qed.

Lemma refused_write_stops_run_witness :
  exists w' evs,
    DashboardUpdater.run_update docs_updater world_without_docs
    = (Raise (Exn FileNotFoundError
                  "[Errno 2] No such file or directory: 'docs/README.md'"), w') /\
    files w' = files world_without_docs /\
    log w' = (log world_without_docs ++ [Print starting_line] ++ evs)%list /\
    collect_trace default_profiles evs.
Proof.
  exact (refused_write_stops_run
           docs_updater default_profiles "docs/README.md" world_without_docs
           (Exn FileNotFoundError "[Errno 2] No such file or directory: 'docs/README.md'")
           eq_refl eq_refl eq_refl).
Defined.

(* ================================================================== *)
(** * Further properties: the configuration and [main] *)

Section MainFacts.
Import DashboardUpdater.
Context {Y : Yaml}.


Lemma init_present (path content : string) (d : dict value) (w : World) :
  dict_get (files w) path = Some content ->
  safe_load content = Ok (VDict d) ->
  __init__ path w
  = (Ok (New (VDict d) (dict_get_or d "readme_path" (VStr "README.md"))), w).
Proof.
  intros Hf Hl. unfold __init__, bind.
  rewrite (load_config_present path content w Hf), Hl. reflexivity.
Qed.

End MainFacts.

(** X5.  The configuration file is there and the YAML library reads it.
    When what it reads is a mapping, [__init__] returns an updater with
    that mapping as configuration and, as README path, the value under
    [readme_path], or "README.md" when the mapping has no such key; the
    world is unchanged.  When it is anything else (an empty file reads as
    [None]), [__init__] raises [AttributeError], and so does [main], with
    nothing requested, printed or written. *)
Theorem init_reads_config (Y : Yaml) (path content : string) (v : value) (w : World) :
  dict_get (files w) path = Some content ->
  safe_load content = Ok v ->
  match v with
  | VDict d =>
      DashboardUpdater.__init__ path w
      = (Ok (DashboardUpdater.New v (dict_get_or d "readme_path" (VStr "README.md"))), w)
  | _ =>
      exists e,
        exn_cls e = AttributeError /\
        DashboardUpdater.__init__ path w = (Raise e, w) /\
        (path = config_path -> DashboardUpdater.main w = (Raise e, w))
  end.
Proof.
  intros Hf Hl.
  assert (Hload : DashboardUpdater._load_config path w = (Ok v, w))
    by now rewrite (load_config_present path content w Hf), Hl.
  destruct v as [| b | z | s | l | d];
    try (exists (Exn AttributeError "object has no attribute 'get'");
         split; [reflexivity|];
         assert (Hi : DashboardUpdater.__init__ path w
                      = (Raise (Exn AttributeError "object has no attribute 'get'"), w))
           by (unfold DashboardUpdater.__init__, bind; rewrite Hload; reflexivity);
         split; [exact Hi|];
         intros ->; unfold DashboardUpdater.main, bind, config_path in *;
         now rewrite Hi).
  exact (init_present path content d w Hf Hl).
Qed.

Lemma init_reads_config_witness :
  exists e,
    exn_cls e = AttributeError /\
    DashboardUpdater.__init__ config_path world_with_empty_config
    = (Raise e, world_with_empty_config) /\
    (config_path = config_path ->
     DashboardUpdater.main world_with_empty_config = (Raise e, world_with_empty_config)).
Proof.
  exact (init_reads_config block_yaml config_path "" VNone world_with_empty_config
                           eq_refl eq_refl).
Defined.

(** X6.  The configuration file is absent and the file system refuses to
    create it.  The error of the file system, raised while the default
    configuration is being written, leaves [_load_config], [__init__] and
    [main]: no file is created and nothing is requested or printed. *)
Theorem config_unwritable (Y : Yaml) (path : string) (w : World) (e : exn) :
  dict_get (files w) path = None ->
  refuses w path = Some e ->
  DashboardUpdater._load_config path w = (Raise e, w) /\
  DashboardUpdater.__init__ path w = (Raise e, w) /\
  (path = config_path -> DashboardUpdater.main w = (Raise e, w)).
Proof.
  intros Ha Hw.
  assert (H : DashboardUpdater._load_config path w = (Raise e, w)).
  { unfold DashboardUpdater._load_config, DashboardUpdater._create_default_config,
      try_except, bind, read_file, write_file.
    rewrite Ha. cbn [is_class exn_cls exn_class_eqb]. now rewrite Hw. }
  split; [exact H|].
  assert (Hi : DashboardUpdater.__init__ path w = (Raise e, w))
    by (unfold DashboardUpdater.__init__, bind; now rewrite H).
  split; [exact Hi|].
  intros ->. unfold DashboardUpdater.main, bind, config_path in *. now rewrite Hi.
Qed.

Lemma config_unwritable_witness :
  DashboardUpdater._load_config (Y := block_yaml) "docs/config.yaml" world_without_docs
  = (Raise (Exn FileNotFoundError
                "[Errno 2] No such file or directory: 'docs/config.yaml'"),
     world_without_docs) /\
  DashboardUpdater.__init__ (Y := block_yaml) "docs/config.yaml" world_without_docs
  = (Raise (Exn FileNotFoundError
                "[Errno 2] No such file or directory: 'docs/config.yaml'"),
     world_without_docs).
Proof.
  destruct (config_unwritable
              block_yaml "docs/config.yaml" world_without_docs
              (Exn FileNotFoundError
                   "[Errno 2] No such file or directory: 'docs/config.yaml'")
              eq_refl eq_refl) as (H1 & H2 & _).
  split; [exact H1 | exact H2].
Defined.





(* ================================================================== *)
(** * Further properties: the metrics of a run *)

(** The four metrics of the record collected are absent or counts. *)
Lemma collected_fields (self : DashboardUpdater.t) (ps : dict value) (w : World) :
  subscript (DashboardUpdater.config self) "profiles" = Ok (VDict ps) ->
  exists data w',
    DashboardUpdater.collect_data self w = (Ok data, w') /\
    forall label source name,
      In (label, source, name) metric_lines ->
      count_or_absent (field data source name).
Proof.
  intro Hps.
  destruct (collect_data_steps self ps Hps w) as (e1 & w1 & e2 & w2 & Hv1 & Hv2 & Hc).
  eexists _, _. split; [exact Hc|].
  assert (H1 : dict_in "researchgate" ps = true -> researchgate_shape e1).
  { unfold visit, dict_in in *. destruct (dict_get ps "researchgate"); [|discriminate].
    intros _. destruct Hv1 as (w0 & Hcall & _).
    exact (researchgate_call_shape _ _ _ _ Hcall). }
  assert (H2 : dict_in "google_scholar" ps = true -> google_scholar_shape e2).
  { unfold visit, dict_in in *. destruct (dict_get ps "google_scholar"); [|discriminate].
    intros _. destruct Hv2 as (w0 & Hcall & _).
    exact (google_scholar_call_shape _ _ _ _ Hcall). }
  intros label source name Hin. unfold field, count_or_absent.
  destruct Hin as [E | [E | [E | [E | []]]]]; injection E as <- <- <-.
  - rewrite !record_with_other by discriminate.
    destruct (dict_in "researchgate" ps) eqn:Ein.
    + rewrite (record_with_present _ _ _ _ Ein).
      destruct (H1 eq_refl) as [-> | (? & ? & p & ? & ? & -> & Hp & _)];
        [now left | right; exists p; split; [exact Hp | reflexivity]].
    + rewrite record_with_absent by auto. now left.
  - rewrite record_with_other by discriminate.
    destruct (dict_in "google_scholar" ps) eqn:Ein.
    + rewrite (record_with_present _ _ _ _ Ein).
      destruct (H2 eq_refl) as [-> | (? & c & ? & ? & -> & Hc' & _)];
        [now left | right; exists c; split; [exact Hc' | reflexivity]].
    + rewrite record_with_absent;
        [now left | assumption | apply record_with_absent; auto].
  - rewrite record_with_other by discriminate.
    destruct (dict_in "google_scholar" ps) eqn:Ein.
    + rewrite (record_with_present _ _ _ _ Ein).
      destruct (H2 eq_refl) as [-> | (? & ? & h & ? & -> & _ & Hh & _)];
        [now left | right; exists h; split; [exact Hh | reflexivity]].
    + rewrite record_with_absent;
        [now left | assumption | apply record_with_absent; auto].
  - rewrite record_with_other by discriminate.
    destruct (dict_in "google_scholar" ps) eqn:Ein.
    + rewrite (record_with_present _ _ _ _ Ein).
      destruct (H2 eq_refl) as [-> | (? & ? & ? & i & -> & _ & _ & Hi)];
        [now left | right; exists i; split; [exact Hi | reflexivity]].
    + rewrite record_with_absent;
        [now left | assumption | apply record_with_absent; auto].
Qed.

(** X9.  With a [profiles] mapping in the configuration, whatever the
    network answers: each of the four metrics of the record collected is
    absent or an integer that is not negative, and the document rendered
    from the record shows N/A for an absent metric and the decimal digits of
    the integer for the others.  So no metric line ever shows a negative
    number, [None] or a text taken from a page. *)
Theorem rendered_metrics_are_counts (self : DashboardUpdater.t) (ps : dict value)
        (w : World) :
  subscript (DashboardUpdater.config self) "profiles" = Ok (VDict ps) ->
  exists data w' doc,
    DashboardUpdater.collect_data self w = (Ok data, w') /\
    DashboardUpdater.generate_readme data w' = (Ok doc, w') /\
    forall label source name,
      In (label, source, name) metric_lines ->
      (field data source name = None /\
       Text.has_line doc (label ++ "N/A") = true) \/
      (exists n, (0 <= n)%Z /\ field data source name = Some (VInt n) /\
                 Text.has_line doc (label ++ Text.of_Z n) = true).
Proof.
  intro Hps.
  destruct (collected_fields self ps w Hps) as (data & w' & Hc & Hfields).
  destruct (document_metric_lines data w') as (doc & Hgen & Hlines).
  exists data, w', doc. split; [exact Hc|]. split; [exact Hgen|].
  intros label source name Hin.
  pose proof (Hlines label source name Hin) as Hl.
  rewrite metric_field in Hl.
  destruct (Hfields label source name Hin) as [Hf | (n & Hn & Hf)]; rewrite Hf in Hl.
  - left. split; [exact Hf|]. apply Hl.
    destruct Hin as [E | [E | [E | [E | []]]]]; injection E as <- <- <-; reflexivity.
  - right. exists n. split; [exact Hn|]. split; [exact Hf|]. apply Hl.
    change (Py.str (VInt n)) with (Text.of_Z n).
    rewrite no_newline_append, of_Z_no_newline.
    destruct Hin as [E | [E | [E | [E | []]]]]; injection E as <- <- <-; reflexivity.
Qed.

Lemma rendered_metrics_are_counts_witness :
  exists data w' doc,
    DashboardUpdater.collect_data
      default_updater
      (world_serving "12 Publications <td class=gsc_rsb_std>7</td>")
    = (Ok data, w') /\
    DashboardUpdater.generate_readme data w' = (Ok doc, w') /\
    forall label source name,
      In (label, source, name) metric_lines ->
      (field data source name = None /\
       Text.has_line doc (label ++ "N/A") = true) \/
      (exists n, (0 <= n)%Z /\ field data source name = Some (VInt n) /\
                 Text.has_line doc (label ++ Text.of_Z n) = true).
Proof.
  exact (rendered_metrics_are_counts
           default_updater default_profiles
           (world_serving "12 Publications <td class=gsc_rsb_std>7</td>")
           eq_refl).
Defined.

(* ================================================================== *)
(** * Further properties: the texts extracted *)

Lemma all_lstrip (p : ascii -> bool) (s : string) :
  Text.all p s = true -> Text.all p (Text.lstrip s) = true.
Proof.
  induction s as [|c s IH]; simpl; [reflexivity|]. intro H.
  destruct (Text.is_space c); [|exact H].
  apply andb_true_iff in H. now apply IH.
Qed.

(** What holds of every character of [s] holds of every character of
    [s.strip()]. *)
Lemma all_strip (p : ascii -> bool) (s : string) :
  Text.all p s = true -> Text.all p (Text.strip s) = true.
Proof.
  intro H. unfold Text.strip, Text.rstrip.
  rewrite all_rev. apply all_lstrip. rewrite all_rev. now apply all_lstrip.
Qed.

Lemma lstrip_append (a b : string) :
  Text.lstrip (a ++ b)
  = if Text.all Text.is_space a then Text.lstrip b else Text.lstrip a ++ b.
Proof.
  induction a as [|c a IH]; simpl; [reflexivity|].
  destruct (Text.is_space c); simpl; [exact IH | reflexivity].
Qed.

Lemma rev_cons (c : ascii) (s : string) :
  Text.rev (String c s) = Text.rev s ++ String c "".
Proof. unfold Text.rev. simpl. now rewrite (rev_onto_append s (String c "")). Qed.

(** [rstrip] by recursion from the left. *)
Lemma rstrip_cons (c : ascii) (s : string) :
  Text.rstrip (String c s)
  = if Text.all Text.is_space s
    then (if Text.is_space c then "" else String c "")
    else String c (Text.rstrip s).
Proof.
  unfold Text.rstrip. rewrite rev_cons, lstrip_append, all_rev.
  destruct (Text.all Text.is_space s).
  - simpl. destruct (Text.is_space c); reflexivity.
  - rewrite rev_append. reflexivity.
Qed.

Lemma lstrip_length (s : string) : String.length (Text.lstrip s) <= String.length s.
Proof.
  induction s as [|c s IH]; simpl; [lia|]. destruct (Text.is_space c); simpl; lia.
Qed.

(** [lstrip] leaves a text as it is exactly when the text does not start
    with white space. *)
Lemma lstrip_fixed (s : string) :
  Text.lstrip s = s <->
  match s with
  | EmptyString => True
  | String c _ => Text.is_space c = false
  end.
Proof.
  destruct s as [|c s]; simpl; [tauto|].
  destruct (Text.is_space c) eqn:E; split; try tauto; try discriminate.
  intro H. exfalso. pose proof (lstrip_length s) as Hl.
  rewrite H in Hl. simpl in Hl. lia.
Qed.

Lemma lstrip_idempotent (s : string) : Text.lstrip (Text.lstrip s) = Text.lstrip s.
Proof.
  apply lstrip_fixed. induction s as [|c s IH]; simpl; [exact I|].
  destruct (Text.is_space c) eqn:E; [exact IH | exact E].
Qed.

Lemma rstrip_idempotent (s : string) : Text.rstrip (Text.rstrip s) = Text.rstrip s.
Proof.
  unfold Text.rstrip. rewrite rev_involutive. f_equal. apply lstrip_idempotent.
Qed.

Lemma lstrip_rstrip (s : string) :
  Text.lstrip s = s -> Text.lstrip (Text.rstrip s) = Text.rstrip s.
Proof.
  intro H. apply lstrip_fixed in H. apply lstrip_fixed.
  destruct s as [|c s]; [exact I|].
  rewrite rstrip_cons, H. destruct (Text.all Text.is_space s); exact H.
Qed.

(** [s.strip().strip()] is [s.strip()]. *)
Lemma strip_idempotent (s : string) : Text.strip (Text.strip s) = Text.strip s.
Proof.
  unfold Text.strip.
  rewrite (lstrip_rstrip (Text.lstrip s) (lstrip_idempotent s)).
  apply rstrip_idempotent.
Qed.

Lemma free_of_in_text (x : ascii) (s : string) :
  free_of x s = true -> Text.in_text x s = false.
Proof.
  unfold free_of. induction s as [|c s IH]; simpl; [reflexivity|]. intro H.
  apply andb_true_iff in H. destruct H as [Hc Hs].
  apply negb_true_iff in Hc. rewrite Hc, (IH Hs). reflexivity.
Qed.

Lemma all_weaken (p q : ascii -> bool) (s : string) :
  (forall c, p c = true -> q c = true) -> Text.all p s = true -> Text.all q s = true.
Proof.
  intro Hpq. induction s as [|c s IH]; simpl; [reflexivity|]. intro H.
  apply andb_true_iff in H. destruct H as [Hc Hs].
  now rewrite (Hpq _ Hc), (IH Hs).
Qed.

Section CleanFacts.
Import Re.

Lemma not_class_excludes (ic : bool) (x c : ascii) :
  cls_match ic (Not x) c = true -> negb (Ascii.eqb c x) = true.
Proof.
  unfold cls_match. intro H. apply negb_true_iff in H. apply negb_true_iff.
  destruct (Ascii.eqb c x) eqn:E; [|reflexivity].
  apply Ascii.eqb_eq in E. subst c.
  destruct ic; [rewrite Ascii.eqb_refl in H|]; discriminate H.
Qed.

(** The capture of a pattern whose groups are [([^x]+)] has no [x]. *)
Lemma matches_groups_exclude (x : ascii) ic r cs g g' :
  Matches ic r cs g g' -> groups_exclude x r = true ->
  (forall t, g = Some t -> free_of x t = true) ->
  forall t, g' = Some t -> free_of x t = true.
Proof.
  induction 1; simpl; intros Hd Hg; try assumption.
  - destruct r; try discriminate. destruct a as [| y | |]; try discriminate.
    apply Ascii.eqb_eq in Hd. subst y.
    intros t Ht. injection Ht as <-.
    inversion H; subst. unfold free_of. cbn [Text.all].
    apply andb_true_iff. split.
    + eapply not_class_excludes; eassumption.
    + eapply all_weaken; [|eassumption]. apply not_class_excludes.
  - apply andb_true_iff in Hd. destruct Hd. auto.
Qed.

(** A text extractor returns clean text. *)
Lemma search_clean (pattern : string) (flags : bool) (f : string -> result string) :
  compiles_to (excluding_group_only "<") pattern = true ->
  (forall html, f html = match search pattern html flags with
                         | Raise e => Raise e
                         | Ok (Some m) => group_strip m
                         | Ok None => Ok ""
                         end) ->
  forall html, exists s, f html = Ok s /\ clean_text s.
Proof.
  unfold compiles_to, excluding_group_only.
  destruct (compile pattern) as [r|] eqn:Ec; [|discriminate].
  intros Hx Hf html. apply andb_true_iff in Hx. destruct Hx as [Hx Hs].
  rewrite Hf, (search_compiled _ _ _ _ Ec).
  destruct (search_in flags r html) as [m|] eqn:E.
  - destruct (search_sound _ _ _ _ E) as (pre & rest & _ & Hm).
    pose proof (matches_groups_exclude "<" _ _ _ _ _ Hm Hx) as Hfree.
    unfold group_strip. destruct (group1 m) as [g|] eqn:Eg.
    + eexists. split; [reflexivity|]. split; [apply strip_idempotent|].
      apply free_of_in_text. unfold free_of. apply all_strip.
      apply Hfree; [discriminate | reflexivity].
    + exfalso. exact (matches_sets_group _ _ _ _ _ Hm (or_introl Hs) eq_refl).
  - exists "". split; [reflexivity|]. split; reflexivity.
Qed.

End CleanFacts.

(** X10.  On every page, each of the three text extractors (the two names
    and the institution) returns a text that stripping leaves as it is, so
    a text with no white space at either end, and that has no [<] in it: no
    markup of the page gets into a name. *)
Theorem text_extractors_clean (html : string) :
  (exists s, ResearchGateProfile._extract_name html = Ok s /\ clean_text s) /\
  (exists s, ResearchGateProfile._extract_institution html = Ok s /\ clean_text s) /\
  (exists s, GoogleScholarProfile._extract_name html = Ok s /\ clean_text s).
Proof.
  split; [|split].
  - exact (search_clean ResearchGateProfile.name_pattern Re.NOFLAG _
                        eq_refl (fun _ => eq_refl) html).
  - exact (search_clean ResearchGateProfile.institution_pattern Re.IGNORECASE _
                        eq_refl (fun _ => eq_refl) html).
  - exact (search_clean GoogleScholarProfile.name_pattern Re.NOFLAG _
                        eq_refl (fun _ => eq_refl) html).
Qed.

(* ================================================================== *)
(** * Further properties: letter case *)

Lemma lower_idempotent (c : ascii) : Text.lower (Text.lower c) = Text.lower c.
Proof. destruct c as [[] [] [] [] [] [] [] []]; reflexivity. Qed.

Lemma is_digit_lower (c : ascii) : Text.is_digit (Text.lower c) = Text.is_digit c.
Proof. destruct c as [[] [] [] [] [] [] [] []]; reflexivity. Qed.

Lemma is_space_lower (c : ascii) : Text.is_space (Text.lower c) = Text.is_space c.
Proof. destruct c as [[] [] [] [] [] [] [] []]; reflexivity. Qed.

Lemma lower_digit (c : ascii) : Text.is_digit c = true -> Text.lower c = c.
Proof. destruct c as [[] [] [] [] [] [] [] []]; try reflexivity; discriminate. Qed.

Lemma lowercase_digits (s : string) :
  Text.all Text.is_digit s = true -> lowercase s = s.
Proof.
  induction s as [|c s IH]; simpl; [reflexivity|]. intro H.
  apply andb_true_iff in H. destruct H as [Hc Hs].
  now rewrite (lower_digit _ Hc), (IH Hs).
Qed.

Lemma lowercase_append (a b : string) : lowercase (a ++ b) = lowercase a ++ lowercase b.
Proof. induction a as [|c a IH]; simpl; [reflexivity | now rewrite IH]. Qed.

Section CaseFacts.
Import Re.

Lemma cls_match_lower (a : cls) (c : ascii) :
  cls_match IGNORECASE a (Text.lower c) = cls_match IGNORECASE a c.
Proof.
  destruct a; simpl; rewrite ?lower_idempotent;
    auto using is_digit_lower, is_space_lower.
Qed.

Variables R R' : Type.
Variable F : R -> R'.

Lemma star_lower (p : ascii -> bool) (s : string) :
  (forall c, p (Text.lower c) = p c) ->
  forall (k : string -> string -> option R) (k' : string -> string -> option R'),
    (forall cs rest, k' (lowercase cs) (lowercase rest) = option_map F (k cs rest)) ->
    star p (lowercase s) k' = option_map F (star p s k).
Proof.
  intro Hp. induction s as [|c s IH]; intros k k' Hk; simpl.
  - exact (Hk "" "").
  - rewrite Hp. destruct (p c); [|exact (Hk "" (String c s))].
    rewrite (IH (fun cs rest => k (String c cs) rest)
                (fun cs rest => k' (String (Text.lower c) cs) rest))
      by (intros cs rest; exact (Hk (String c cs) rest)).
    destruct (star p s (fun cs rest => k (String c cs) rest)); simpl;
      [reflexivity | exact (Hk "" (String c s))].
Qed.

(** Matching without regard to case goes on the text in lower case as it
    goes on the text itself. *)
Lemma run_lower (r : regex) :
  forall s g (k : string -> string -> option string -> option R)
         (k' : string -> string -> option string -> option R'),
    (forall cs rest g0,
        k' (lowercase cs) (lowercase rest) (option_map lowercase g0)
        = option_map F (k cs rest g0)) ->
    run IGNORECASE r (lowercase s) (option_map lowercase g) k'
    = option_map F (run IGNORECASE r s g k).
Proof.
  induction r as [|a|a|a|a|r IH|r1 IH1 r2 IH2]; intros s g k k' Hk;
    cbn [run].
  - exact (Hk "" s g).
  - destruct s as [|c s]; cbn [lowercase]; [reflexivity|].
    rewrite cls_match_lower.
    destruct (cls_match IGNORECASE a c); [exact (Hk (String c "") s g) | reflexivity].
  - apply star_lower; [apply cls_match_lower|].
    intros cs rest. exact (Hk cs rest g).
  - destruct s as [|c s]; cbn [lowercase]; [reflexivity|].
    rewrite cls_match_lower.
    destruct (cls_match IGNORECASE a c); [|reflexivity].
    apply star_lower; [apply cls_match_lower|].
    intros cs rest. exact (Hk (String c cs) rest g).
  - destruct s as [|c s]; cbn [lowercase]; [exact (Hk "" "" g)|].
    rewrite cls_match_lower.
    destruct (cls_match IGNORECASE a c); [|exact (Hk "" (String c s) g)].
    pose proof (Hk (String c "") s g) as H1. cbn [lowercase] in H1. rewrite H1.
    destruct (k (String c "") s g); simpl;
      [reflexivity | exact (Hk "" (String c s) g)].
  - apply IH. intros cs rest g0. exact (Hk cs rest (Some cs)).
  - apply IH1. intros c1 s1 g1. apply IH2. intros c2 s2 g2.
    rewrite <- lowercase_append. apply Hk.
Qed.

End CaseFacts.

Section CaseSearch.
Import Re.

Lemma match_here_lower (r : regex) (s : string) :
  match_here IGNORECASE r (lowercase s)
  = option_map lower_match (match_here IGNORECASE r s).
Proof.
  unfold match_here.
  apply (run_lower _ _ lower_match r s None). reflexivity.
Qed.

Lemma search_in_lower (r : regex) (s : string) :
  search_in IGNORECASE r (lowercase s)
  = option_map lower_match (search_in IGNORECASE r s).
Proof.
  induction s as [|c s IH].
  - pose proof (match_here_lower r "") as H. cbn [lowercase] in H.
    cbn [lowercase search_in].
    destruct (match_here IGNORECASE r "") as [m|]; [exact H | reflexivity].
  - pose proof (match_here_lower r (String c s)) as H. cbn [lowercase] in H.
    cbn [lowercase search_in]. rewrite H.
    destruct (match_here IGNORECASE r (String c s)); simpl; [reflexivity | exact IH].
Qed.

(** A count searched without regard to case is the same on the page in
    lower case. *)
Lemma search_count_lower (pattern : string) (f : string -> result Z) :
  compiles_to digit_group_only pattern = true ->
  (forall html, f html = match search pattern html IGNORECASE with
                         | Raise e => Raise e
                         | Ok (Some m) => int_of (group1 m)
                         | Ok None => Ok 0%Z
                         end) ->
  forall html, f (lowercase html) = f html.
Proof.
  unfold compiles_to, digit_group_only.
  destruct (compile pattern) as [r|] eqn:Ec; [|discriminate].
  intros Hds Hf html. apply andb_true_iff in Hds. destruct Hds as [Hd Hs].
  rewrite !Hf, !(search_compiled _ _ _ _ Ec), search_in_lower.
  destruct (search_in IGNORECASE r html) as [m|] eqn:E; [|reflexivity].
  destruct (search_sound _ _ _ _ E) as (pre & rest & _ & Hm).
  destruct (digit_capture _ _ _ _ Hd Hs Hm) as (ds & Eg & Hall & Hne).
  simpl. rewrite Eg. simpl. now rewrite (lowercase_digits _ Hall).
Qed.

End CaseSearch.

(** X11.  Two pages that differ only in the case of their ASCII letters
    give the same ResearchGate publications, citations and h-index: the
    labels of the counts are found in any mix of upper and lower case. *)
Theorem researchgate_counts_ignore_case (html html' : string) :
  lowercase html = lowercase html' ->
  ResearchGateProfile._extract_publications html
  = ResearchGateProfile._extract_publications html' /\
  ResearchGateProfile._extract_citations html
  = ResearchGateProfile._extract_citations html' /\
  ResearchGateProfile._extract_h_index html
  = ResearchGateProfile._extract_h_index html'.
Proof.
  intro H.
  pose proof (search_count_lower ResearchGateProfile.publications_pattern
                ResearchGateProfile._extract_publications eq_refl (fun _ => eq_refl))
    as Hp.
  pose proof (search_count_lower ResearchGateProfile.citations_pattern
                ResearchGateProfile._extract_citations eq_refl (fun _ => eq_refl))
    as Hc.
  pose proof (search_count_lower ResearchGateProfile.h_index_pattern
                ResearchGateProfile._extract_h_index eq_refl (fun _ => eq_refl))
    as Hh.
  rewrite <- (Hp html), <- (Hp html'), <- (Hc html), <- (Hc html'),
    <- (Hh html), <- (Hh html'), H.
  auto.
Qed.

Lemma researchgate_counts_ignore_case_witness :
  ResearchGateProfile._extract_publications "12 PUBLICATIONS, 30 Citations, H-Index: <b>4"
  = ResearchGateProfile._extract_publications "12 publications, 30 CITATIONS, h-index: <B>4" /\
  ResearchGateProfile._extract_citations "12 PUBLICATIONS, 30 Citations, H-Index: <b>4"
  = ResearchGateProfile._extract_citations "12 publications, 30 CITATIONS, h-index: <B>4" /\
  ResearchGateProfile._extract_h_index "12 PUBLICATIONS, 30 Citations, H-Index: <b>4"
  = ResearchGateProfile._extract_h_index "12 publications, 30 CITATIONS, h-index: <B>4".
Proof.
  exact (researchgate_counts_ignore_case
           "12 PUBLICATIONS, 30 Citations, H-Index: <b>4"
           "12 publications, 30 CITATIONS, h-index: <B>4" eq_refl).
Defined.

(* ================================================================== *)
(** * Further properties: where the counts come from *)

Section Provenance.
Import Re.






End Provenance.


(* ================================================================== *)
(** * Further properties: the counts in words of the page *)

Section LabelFacts.
Import Re.











(** ** A number before a word *)







(** ** A statistics cell *)












(** ** The cells [findall] lists *)







End LabelFacts.




(* ================================================================== *)
(** * Further properties: the texts in words of the page *)

Section TextShapes.
Import Re.










(** ** The heading *)




(** ** The name block *)




(** ** The institution *)






End TextShapes.


(* ================================================================== *)
(** * Further properties: the ResearchGate h-index in words of the page *)

Section GreedyFacts.
Import Re.
Variable R : Type.




End GreedyFacts.

Section PositionFacts.
Import Re.






End PositionFacts.

